(** * network-escpos: the ESC/POS network printer controller

    A shallow embedding of [NetworkPrinter] (network-escpos/__init__.py):
    the style setter [set], the text writers [text], [text_ln] and [ln],
    the paper cutter [cut] and the two status decoders [is_online] and
    [paper_status].

    The socket is kept as the list of buffers handed to [sendall] plus the
    bytes the printer will answer with; exceptions are values of [exn]
    threaded through a state-and-error monad, so that a call that raises
    half way keeps what it has already sent.

    What is outside the controller is kept abstract or ideal:
    - the constants of the [commands] module, which the sources import but
      do not contain, are a parameter [C : commands];
    - [str.encode] is a parameter [encode], the codec of the runtime;
    - the socket is followed on the runs where it works: [sendall]
      delivers, and [recv(16)] returns up to 16 bytes of the answer, none
      at the end of the stream; a [recv] that times out on a silent
      printer raises, and no statement is made about such a run;
    - [time.sleep] has no effect;
    - a [str] is a string of 8-bit characters, and [str.upper] acts on the
      ASCII letters. *)

From Stdlib Require Import ZArith String Ascii List Lia Bool.
From Stdlib Require Import Floats.SpecFloat.
From stdpp Require Import base gmap strings list.
Import ListNotations.

Local Open Scope string_scope.
Local Open Scope list_scope.
Local Open Scope Z_scope.

(** ** Python values *)

(** A byte string is a list of integers, each meant to lie in 0..255. *)
Abbreviation bytes := (list Z).

(** The exceptions the controller can raise or let through. *)
Inductive exn : Type :=
| ValueError (msg : string)
| KeyError
| IndexError
| TypeError
| StructError
| UnicodeEncodeError
| LookupError.

Inductive result (A : Type) : Type :=
| Ok (a : A)
| Raise (e : exn).
Arguments Ok {A} a.
Arguments Raise {A} e.

#[global] Instance result_ret : MRet result := fun A a => Ok a.
#[global] Instance result_bind : MBind result := fun A B f r =>
  match r with
  | Ok a => f a
  | Raise e => Raise e
  end.

(** [set] declares no types for [width] and [height] and guards them with
    [isinstance]; they are kept as dynamically typed values. *)
Inductive pyval : Type :=
| PyNone
| PyBool (b : bool)
| PyInt (n : Z)
| PyFloat (x : spec_float)
| PyStr (s : string).

(** [isinstance(v, int)]: [bool] is a subclass of [int]. *)
Definition isinstance_int (v : pyval) : bool :=
  match v with
  | PyBool _ | PyInt _ => true
  | _ => false
  end.

Definition is_number (v : pyval) : Prop :=
  match v with
  | PyBool _ | PyInt _ | PyFloat _ => True
  | _ => False
  end.

(** Python compares an [int] with a [float] exactly, on the real line;
    every comparison with a NaN is false. *)
Definition signed (s : bool) (m : positive) : Z :=
  if s then Z.neg m else Z.pos m.

Definition int_le_float (k : Z) (x : spec_float) : bool :=
  match x with
  | S754_zero _ => k <=? 0
  | S754_infinity s => negb s
  | S754_nan => false
  | S754_finite s m e =>
      if 0 <=? e then k <=? signed s m * 2 ^ e
      else k * 2 ^ (- e) <=? signed s m
  end.

Definition float_le_int (x : spec_float) (k : Z) : bool :=
  match x with
  | S754_zero _ => 0 <=? k
  | S754_infinity s => s
  | S754_nan => false
  | S754_finite s m e =>
      if 0 <=? e then signed s m * 2 ^ e <=? k
      else signed s m <=? k * 2 ^ (- e)
  end.

(** [k <= v] and [v <= k] for an integer literal [k]: ordering an [int]
    against [None] or a [str] is a [TypeError]. *)
Definition py_int_le (k : Z) (v : pyval) : result bool :=
  match v with
  | PyBool b => Ok (k <=? Z.b2z b)
  | PyInt n => Ok (k <=? n)
  | PyFloat x => Ok (int_le_float k x)
  | PyNone | PyStr _ => Raise TypeError
  end.

Definition py_le_int (v : pyval) (k : Z) : result bool :=
  match v with
  | PyBool b => Ok (Z.b2z b <=? k)
  | PyInt n => Ok (n <=? k)
  | PyFloat x => Ok (float_le_int x k)
  | PyNone | PyStr _ => Raise TypeError
  end.

(** The chained comparison [lo <= v <= hi]: the second test is only
    evaluated when the first one holds. *)
Definition py_between (lo : Z) (v : pyval) (hi : Z) : result bool :=
  c ← py_int_le lo v;
  if c : bool then py_le_int v hi else Ok false.

(** The integer a float is equal to, if any: the key it hits in a [dict]. *)
Definition float_integral (x : spec_float) : option Z :=
  match x with
  | S754_zero _ => Some 0
  | S754_finite s m e =>
      if 0 <=? e then Some (signed s m * 2 ^ e)
      else if Z.pos m mod 2 ^ (- e) =? 0 then Some (signed s m / 2 ^ (- e))
      else None
  | _ => None
  end.

(** [d[k]] for a [dict] with integer keys: keys compare by numeric value,
    so [True] finds the entry of [1]; a missing key is a [KeyError]. *)
Definition py_getitem {V : Type} (d : gmap Z V) (k : pyval) : result V :=
  let key :=
    match k with
    | PyBool b => Some (Z.b2z b)
    | PyInt n => Some n
    | PyFloat x => float_integral x
    | PyNone | PyStr _ => None
    end in
  match key ≫= (d !!.) with
  | Some v => Ok v
  | None => Raise KeyError
  end.

(** [d[k]] for a statically typed key. *)
Definition getitem `{Countable K} {V : Type} (d : gmap K V) (k : K) : result V :=
  match d !! k with
  | Some v => Ok v
  | None => Raise KeyError
  end.

(** [six.int2byte] is [struct.Struct(">B").pack]. *)
Definition int2byte (n : Z) : result bytes :=
  if (0 <=? n) && (n <=? 255) then Ok [n] else Raise StructError.

(** ** Strings *)

Definition NL : string := String "010" "".

(** [s * n] on strings: empty for [n <= 0]. *)
Definition str_mul (s : string) (n : Z) : string :=
  Nat.iter (Z.to_nat n) (String.append s) "".

(** [str.upper] and [str.lower] on the ASCII letters; the other characters
    of the 8-bit alphabet are left alone (none of them has an ASCII letter
    as its upper case). *)
Definition upper_char (c : ascii) : ascii :=
  let n := nat_of_ascii c in
  if ((97 <=? n) && (n <=? 122))%nat then ascii_of_nat (n - 32) else c.

Definition lower_char (c : ascii) : ascii :=
  let n := nat_of_ascii c in
  if ((65 <=? n) && (n <=? 90))%nat then ascii_of_nat (n + 32) else c.

Fixpoint upper (s : string) : string :=
  match s with
  | EmptyString => EmptyString
  | String c s' => String (upper_char c) (upper s')
  end.

(** [template.format(arg)] for a template whose only replacement field is
    the automatic [{}]: the field is replaced by [str(arg)], which for a
    [str] argument is the argument itself. *)
Fixpoint format (template arg : string) : string :=
  match template with
  | String "{" (String "}" rest) => String.append arg rest
  | String c rest => String c (format rest arg)
  | EmptyString => EmptyString
  end.

(** ** The [commands] module

    The controller imports its byte sequences, masks and tables from a
    module [commands] that is not part of the sources; the module is a
    parameter of the development. *)

(** [TXT_STYLE]: one [dict] per style attribute. *)
Record txt_style : Type := {
  style_bold : gmap bool bytes;
  style_underline : gmap Z bytes;
  style_size : gmap string bytes;
  style_align : gmap string bytes;
  style_invert : gmap bool bytes;
  style_flip : gmap bool bytes;
  style_density : gmap Z bytes;
  style_smooth : gmap bool bytes;
  style_height : gmap Z Z;
  style_width : gmap Z Z
}.

Record commands : Type := {
  PAPER_FULL_CUT : bytes;
  PAPER_PART_CUT : bytes;
  RT_STATUS_ONLINE : bytes;
  RT_MASK_ONLINE : Z;
  RT_STATUS_PAPER : bytes;
  RT_MASK_PAPER : Z;
  RT_MASK_LOWPAPER : Z;
  RT_MASK_NOPAPER : Z;
  SET_FONT : bytes -> bytes;
  TXT_SIZE : bytes;
  TXT_NORMAL : bytes;
  TXT_STYLE : txt_style
}.

(** ** The device *)

(** The TCP socket: [sent] lists the buffers passed to [sendall], oldest
    first; [rx] holds the bytes the printer has yet to deliver. *)
Record socket : Type := {
  sent : list bytes;
  rx : bytes
}.

Record NetworkPrinter : Type := {
  host : string;
  port : Z;
  timeout : Z;
  autoclose : bool;
  codepage : string;
  device : socket
}.

(** Everything that has gone down the wire, as one byte stream. *)
Definition wire (self : NetworkPrinter) : bytes := concat (sent (device self)).

Definition with_device (self : NetworkPrinter) (d : socket) : NetworkPrinter :=
  {| host := host self; port := port self; timeout := timeout self;
     autoclose := autoclose self; codepage := codepage self; device := d |}.

(** The printer after the buffers [msgs] have been sent, in that order. *)
Definition sends (self : NetworkPrinter) (msgs : list bytes) : NetworkPrinter :=
  with_device self {| sent := sent (device self) ++ msgs; rx := rx (device self) |}.

(** The printer after a status query: [mode] has been sent and up to 16
    bytes of the answer have been consumed. *)
Definition polled (self : NetworkPrinter) (mode : bytes) : NetworkPrinter :=
  with_device self {| sent := sent (device self) ++ [mode];
                      rx := drop 16 (rx (device self)) |}.

(** A method of the printer: it reads and updates [self], and returns a
    value or raises. *)
Definition M (A : Type) : Type := NetworkPrinter -> result A * NetworkPrinter.

#[global] Instance M_ret : MRet M := fun A a self => (Ok a, self).
#[global] Instance M_bind : MBind M := fun A B f m self =>
  match m self with
  | (Ok a, self') => f a self'
  | (Raise e, self') => (Raise e, self')
  end.

Definition raise {A : Type} (e : exn) : M A := fun self => (Raise e, self).

Definition lift {A : Type} (r : result A) : M A := fun self => (r, self).

Definition get_codepage : M string := fun self => (Ok (codepage self), self).

(** The arguments of [set]. *)
Record set_args : Type := {
  align : string;
  font : string;
  bold : bool;
  underline : Z;
  width : pyval;
  height : pyval;
  density : Z;
  invert : bool;
  smooth : bool;
  flip : bool;
  double_width : bool;
  double_height : bool;
  custom_size : bool
}.

Definition set_defaults : set_args := {|
  align := "left"; font := "a"; bold := false; underline := 0;
  width := PyInt 1; height := PyInt 1; density := 9; invert := false;
  smooth := false; flip := false; double_width := false;
  double_height := false; custom_size := false
|}.

(** ** The controller *)

Section Controller.

(** The constants of the absent [commands] module. *)
Variable C : commands.

(** [txt.encode(codepage)], the codec of the Python runtime. *)
Variable encode : string -> string -> result bytes.

(** [self.device.sendall(msg)] *)
Definition _raw (msg : bytes) : M unit := fun self =>
  (Ok tt, sends self [msg]).

(** [self.device.recv(16)], for the runs in which it returns: up to 16
    bytes of the answer, none at the end of the stream.  On a printer that
    stays silent until the timeout set in [open], [recv] raises instead;
    those runs are outside this model, and nothing below is stated about
    them. *)
Definition _read : M bytes := fun self =>
  let d := device self in
  (Ok (take 16 (rx d)), with_device self {| sent := sent d; rx := drop 16 (rx d) |}).

(** [time.sleep]: the passing of time is not observed. *)
Definition sleep (seconds : Z) : M unit := mret tt.

(** The condition guarding the custom size. *)
Definition size_guard (w h : pyval) : result bool :=
  cw ← py_between 1 w 8;
  if cw : bool then
    ch ← py_between 1 h 8;
    if ch : bool then Ok (isinstance_int w && isinstance_int h)
    else Ok false
  else Ok false.

(** Lines 117-135 of [set]: the size block. *)
Definition set_size (a : set_args) : M unit :=
  if custom_size a then
    ok ← lift (size_guard (width a) (height a));
    if ok : bool then
      wv ← lift (py_getitem (style_width (TXT_STYLE C)) (width a));
      hv ← lift (py_getitem (style_height (TXT_STYLE C)) (height a));
      let size_byte := wv + hv in
      b ← lift (int2byte size_byte);
      _raw (TXT_SIZE C ++ b)
    else mret tt
  else
    _raw (TXT_NORMAL C);;
    if double_width a && double_height a then
      c ← lift (getitem (style_size (TXT_STYLE C)) "2x"); _raw c
    else if double_width a then
      c ← lift (getitem (style_size (TXT_STYLE C)) "2w"); _raw c
    else if double_height a then
      c ← lift (getitem (style_size (TXT_STYLE C)) "2h"); _raw c
    else
      c ← lift (getitem (style_size (TXT_STYLE C)) "normal"); _raw c.

(** Lines 137-147 of [set]: the style commands. *)
Definition set_style (a : set_args) : M unit :=
  c ← lift (getitem (style_flip (TXT_STYLE C)) (flip a)); _raw c;;
  c ← lift (getitem (style_smooth (TXT_STYLE C)) (smooth a)); _raw c;;
  c ← lift (getitem (style_bold (TXT_STYLE C)) (bold a)); _raw c;;
  c ← lift (getitem (style_underline (TXT_STYLE C)) (underline a)); _raw c;;
  b ← lift (int2byte 1); _raw (SET_FONT C b);;
  c ← lift (getitem (style_align (TXT_STYLE C)) (align a)); _raw c;;
  (if negb (density a =? 9) then
     c ← lift (getitem (style_density (TXT_STYLE C)) (density a)); _raw c
   else mret tt);;
  c ← lift (getitem (style_invert (TXT_STYLE C)) (invert a)); _raw c.

Definition set (a : set_args) : M unit :=
  set_size a;; set_style a.

Definition text (txt : string) : M unit :=
  cp ← get_codepage;
  b ← lift (encode txt cp);
  _raw b.

Definition text_ln (txt : string) : M unit :=
  text (format ("{}" +:+ NL) txt).

Definition ln (count : Z) : M unit :=
  if count <? 0 then raise (ValueError "Count cannot be lesser than 0")
  else if count >? 0 then text (str_mul NL count)
  else mret tt.

Definition cut (mode : string) : M unit :=
  _raw [10; 10; 10; 10; 10; 10];;
  if String.eqb (upper mode) "PART" then _raw (PAPER_PART_CUT C)
  else _raw (PAPER_FULL_CUT C).

Definition query_status (mode : bytes) : M bytes :=
  _raw mode;;
  sleep 1;;
  status ← _read;
  mret status.

(** [status[0]] *)
Definition first_byte (status : bytes) : result Z :=
  match status !! 0%nat with
  | Some b => Ok b
  | None => Raise IndexError
  end.

(** [not n] for an integer [n]. *)
Definition py_not (n : Z) : bool := n =? 0.

Definition is_online : M bool :=
  status ← query_status (RT_STATUS_ONLINE C);
  if (length status =? 0)%nat then mret false
  else
    b ← lift (first_byte status);
    mret (py_not (Z.land b (RT_MASK_ONLINE C))).

(** A function that falls off its end returns [None]. *)
Definition paper_status : M pyval :=
  status ← query_status (RT_STATUS_PAPER C);
  if (length status =? 0)%nat then mret (PyInt 2)
  else
    b ← lift (first_byte status);
    if Z.land b (RT_MASK_NOPAPER C) =? RT_MASK_NOPAPER C then mret (PyInt 0)
    else
      b ← lift (first_byte status);
      if Z.land b (RT_MASK_LOWPAPER C) =? RT_MASK_LOWPAPER C then mret (PyInt 1)
      else
        b ← lift (first_byte status);
        if Z.land b (RT_MASK_PAPER C) =? RT_MASK_PAPER C then mret (PyInt 2)
        else mret PyNone.

End Controller.

(** ** A concrete [commands] module *)

Definition ESC : Z := 0x1b.
Definition GS : Z := 0x1d.
Definition DLE : Z := 0x10.
Definition EOT : Z := 0x04.

(** Modelled from the spec: the [TXT_STYLE] table of the absent [commands]
    module.  The keys are the ones the data model lists: both states of
    bold, invert, flip and smoothing, underline 0-2, alignment left, center
    and right, density 0-8, the four size modes and the multipliers 1-8,
    the width multiplier in the high nibble of the size byte and the height
    multiplier in the low one.  The byte sequences are those of the
    standard ESC/POS command set. *)
Definition escpos_style : txt_style := {|
  style_bold := {[ false := [ESC; 0x45; 0]; true := [ESC; 0x45; 1] ]};
  style_underline :=
    {[ 0 := [ESC; 0x2d; 0]; 1 := [ESC; 0x2d; 1]; 2 := [ESC; 0x2d; 2] ]};
  style_size :=
    {[ "normal" := [ESC; 0x21; 0x00]; "2h" := [ESC; 0x21; 0x10];
       "2w" := [ESC; 0x21; 0x20]; "2x" := [ESC; 0x21; 0x30] ]};
  style_align :=
    {[ "left" := [ESC; 0x61; 0]; "center" := [ESC; 0x61; 1];
       "right" := [ESC; 0x61; 2] ]};
  style_invert := {[ true := [GS; 0x42; 1]; false := [GS; 0x42; 0] ]};
  style_flip := {[ true := [ESC; 0x7b; 1]; false := [ESC; 0x7b; 0] ]};
  style_density :=
    {[ 0 := [GS; 0x7c; 0]; 1 := [GS; 0x7c; 1]; 2 := [GS; 0x7c; 2];
       3 := [GS; 0x7c; 3]; 4 := [GS; 0x7c; 4]; 5 := [GS; 0x7c; 5];
       6 := [GS; 0x7c; 6]; 7 := [GS; 0x7c; 7]; 8 := [GS; 0x7c; 8] ]};
  style_smooth := {[ true := [GS; 0x62; 1]; false := [GS; 0x62; 0] ]};
  style_height :=
    {[ 1 := 0x00; 2 := 0x01; 3 := 0x02; 4 := 0x03;
       5 := 0x04; 6 := 0x05; 7 := 0x06; 8 := 0x07 ]};
  style_width :=
    {[ 1 := 0x00; 2 := 0x10; 3 := 0x20; 4 := 0x30;
       5 := 0x40; 6 := 0x50; 7 := 0x60; 8 := 0x70 ]}
|}.

(** Modelled from the spec: the constants of the absent [commands] module,
    with the byte sequences and real-time status masks of the standard
    ESC/POS command set. *)
Definition escpos : commands := {|
  PAPER_FULL_CUT := [GS; 0x56; 0];
  PAPER_PART_CUT := [GS; 0x56; 1];
  RT_STATUS_ONLINE := [DLE; EOT; 1];
  RT_MASK_ONLINE := 8;
  RT_STATUS_PAPER := [DLE; EOT; 4];
  RT_MASK_PAPER := 18;
  RT_MASK_LOWPAPER := 30;
  RT_MASK_NOPAPER := 114;
  SET_FONT := fun n => ESC :: 0x4d :: n;
  TXT_SIZE := [GS; 0x21];
  TXT_NORMAL := [ESC; 0x21; 0];
  TXT_STYLE := escpos_style
|}.

(** The code points of a string, one byte each. *)
Definition code_points (s : string) : bytes :=
  map (fun c => Z.of_nat (nat_of_ascii c)) (list_ascii_of_string s).

(** The byte of an 8-bit code point in code page 866: the 7-bit characters
    keep their code, and four characters of the upper half have one. *)
Definition cp866_byte (c : Z) : option Z :=
  if c <? 128 then Some c
  else if c =? 0xa0 then Some 0xff
  else if c =? 0xa4 then Some 0xfd
  else if c =? 0xb0 then Some 0xf8
  else if c =? 0xb7 then Some 0xfa
  else None.

(** A small codec table, [txt.encode(cp)] for three code pages: [ascii]
    accepts the code points below 128, [latin-1] every 8-bit code point,
    [cp866] those of [cp866_byte]; any other name is unknown. *)
Definition sample_encode (txt cp : string) : result bytes :=
  if String.eqb cp "ascii" then
    if forallb (fun b => b <? 128) (code_points txt) then Ok (code_points txt)
    else Raise UnicodeEncodeError
  else if String.eqb cp "latin-1" then Ok (code_points txt)
  else if String.eqb cp "cp866" then
    match mapM cp866_byte (code_points txt) with
    | Some b => Ok b
    | None => Raise UnicodeEncodeError
    end
  else Raise LookupError.

(** A printer freshly connected, with [answer] waiting on the socket. *)
Definition connected (cp : string) (answer : bytes) : NetworkPrinter := {|
  host := "192.168.0.100"; port := 9100; timeout := 5; autoclose := true;
  codepage := cp; device := {| sent := []; rx := answer |}
|}.

(** ** Assumptions on the tables and on the codec *)

(** The size table names the four size modes. *)
Definition size_names (T : txt_style) : Prop :=
  Forall (fun k => is_Some (style_size T !! k)) ["2x"; "2w"; "2h"; "normal"].

(** The multiplier tables: width in the high nibble, height in the low. *)
Definition size_tables (T : txt_style) : Prop :=
  forall n : Z, 1 <= n <= 8 ->
    style_width T !! n = Some (16 * (n - 1)) /\
    style_height T !! n = Some (n - 1).

Definition align_keys (T : txt_style) : Prop :=
  forall s : string,
    is_Some (style_align T !! s) <-> In s ["left"; "center"; "right"].

Definition underline_keys (T : txt_style) : Prop :=
  forall n : Z, is_Some (style_underline T !! n) <-> 0 <= n <= 2.

(** A code page that agrees with ASCII on the 7-bit characters. *)
Definition ascii_compatible (encode : string -> string -> result bytes)
    (cp : string) : Prop :=
  forall txt : string,
    Forall (fun b => b < 128) (code_points txt) ->
    encode txt cp = Ok (code_points txt).

(** The size mode chosen for a pair of doubling flags. *)
Definition size_mode (double_width double_height : bool) : string :=
  match double_width, double_height with
  | true, true => "2x"
  | true, false => "2w"
  | false, true => "2h"
  | false, false => "normal"
  end.

(** The integer a width or height stands for, when it is one. *)
Definition as_int (v : pyval) : option Z :=
  match v with
  | PyInt n => Some n
  | PyBool b => Some (Z.b2z b)
  | _ => None
  end.

(** An integer multiplier within the range of the size table. *)
Definition multiplier (v : pyval) : Prop :=
  exists n : Z, as_int v = Some n /\ 1 <= n <= 8.

(** Equality of strings up to the case of the ASCII letters. *)
Fixpoint ci_eqb (s t : string) : bool :=
  match s, t with
  | EmptyString, EmptyString => true
  | String a s', String b t' =>
      Ascii.eqb (lower_char a) (lower_char b) && ci_eqb s' t'
  | _, _ => false
  end.


Definition style_commands (C : commands) (a : set_args) : list (option bytes) :=
  let T := TXT_STYLE C in
  [style_flip T !! flip a; style_smooth T !! smooth a; style_bold T !! bold a;
   style_underline T !! underline a; Some (SET_FONT C [1]);
   style_align T !! align a]
  ++ (if decide (density a = 9) then [] else [style_density T !! density a])
  ++ [style_invert T !! invert a].

Fixpoint emitted (cmds : list (option bytes)) : list bytes :=
  match cmds with
  | Some c :: rest => c :: emitted rest
  | _ => []
  end.

Definition outcome (cmds : list (option bytes)) : result unit :=
  if forallb (fun c => bool_decide (is_Some c)) cmds then Ok tt else Raise KeyError.

Definition custom_args (w h : pyval) : set_args := {|
  align := "left"; font := "a"; bold := false; underline := 0;
  width := w; height := h; density := 9; invert := false;
  smooth := false; flip := false; double_width := false;
  double_height := false; custom_size := true
|}.

Definition double_args (dw dh : bool) : set_args := {|
  align := "left"; font := "a"; bold := false; underline := 0;
  width := PyInt 1; height := PyInt 1; density := 9; invert := false;
  smooth := false; flip := false; double_width := dw;
  double_height := dh; custom_size := false
|}.

(** The second call of examples/demo.py:
    [set(align='center', width=5, height=5, bold=True, custom_size=True)]. *)
Definition demo_args : set_args := {|
  align := "center"; font := "a"; bold := true; underline := 0;
  width := PyInt 5; height := PyInt 5; density := 9; invert := false;
  smooth := false; flip := false; double_width := false;
  double_height := false; custom_size := true
|}.

Definition density_args (d : Z) : set_args := {|
  align := "left"; font := "a"; bold := false; underline := 0;
  width := PyInt 1; height := PyInt 1; density := d; invert := false;
  smooth := false; flip := false; double_width := false;
  double_height := false; custom_size := false
|}.

Definition bad_args (al : string) (ul : Z) : set_args := {|
  align := al; font := "a"; bold := false; underline := ul;
  width := PyInt 1; height := PyInt 1; density := 9; invert := false;
  smooth := false; flip := false; double_width := false;
  double_height := false; custom_size := false
|}.

(** ** Further vocabulary *)

(** The chained comparison [1 <= v <= 8] holds. *)
Definition within_range (v : pyval) : Prop := py_between 1 v 8 = Ok true.

(** The range comparisons of the size guard only meet numbers: the width
    is one, and so is the height unless the width already fails its
    comparison, which ends the guard before the height is looked at. *)
Definition comparable (w h : pyval) : Prop :=
  is_number w /\ (is_number h \/ ~ within_range w).




(** The arguments [a] with another width and height. *)
Definition with_size (a : set_args) (w h : pyval) : set_args := {|
  align := align a; font := font a; bold := bold a; underline := underline a;
  width := w; height := h; density := density a;
  invert := invert a; smooth := smooth a; flip := flip a;
  double_width := double_width a; double_height := double_height a;
  custom_size := custom_size a
|}.

(** The arguments [a] with other doubling flags. *)
Definition with_double (a : set_args) (dw dh : bool) : set_args := {|
  align := align a; font := font a; bold := bold a; underline := underline a;
  width := width a; height := height a; density := density a;
  invert := invert a; smooth := smooth a; flip := flip a;
  double_width := dw; double_height := dh;
  custom_size := custom_size a
|}.

(** The density table has the keys 0 to 8. *)
Definition density_keys (T : txt_style) : Prop :=
  forall n : Z, is_Some (style_density T !! n) <-> 0 <= n <= 8.

(** The four tables keyed by a boolean have both states. *)
Definition switch_keys (T : txt_style) : Prop :=
  forall b : bool,
    is_Some (style_flip T !! b) /\ is_Some (style_smooth T !! b) /\
    is_Some (style_bold T !! b) /\ is_Some (style_invert T !! b).

(** All the tables hold the keys of the standard command set. *)
Definition standard_tables (T : txt_style) : Prop :=
  size_tables T /\ size_names T /\ align_keys T /\ underline_keys T /\
  density_keys T /\ switch_keys T.

(** A text of 7-bit characters only. *)
Definition ascii_text (txt : string) : Prop :=
  Forall (fun b => b < 128) (code_points txt).

(** The paper-present bits are among the bits of the two other masks. *)
Definition nested_paper_masks (C : commands) : Prop :=
  Z.land (RT_MASK_NOPAPER C) (RT_MASK_PAPER C) = RT_MASK_PAPER C /\
  Z.land (RT_MASK_LOWPAPER C) (RT_MASK_PAPER C) = RT_MASK_PAPER C.

(** A method that does nothing to the printer but send buffers: what was
    sent before stays, the pending answer and the connection parameters are
    untouched, whether the method returns or raises. *)
Definition appends {A : Type} (m : M A) : Prop :=
  forall self : NetworkPrinter,
    exists msgs : list bytes, snd (m self) = sends self msgs.

(** The third call of examples/demo.py:
    [set(align='right', width=1, height=1, custom_size=True)]. *)
Definition demo_args_right : set_args := {|
  align := "right"; font := "a"; bold := false; underline := 0;
  width := PyInt 1; height := PyInt 1; density := 9; invert := false;
  smooth := false; flip := false; double_width := false;
  double_height := false; custom_size := true
|}.

(** [demo_print] of examples/demo.py; [printer.ln()] takes the default
    count 1. *)
Definition demo_print (C : commands)
    (encode : string -> string -> result bytes) : M unit :=
  set C (custom_args (PyInt 2) (PyInt 2));;
  text_ln encode "Demo network-escpos";;
  ln encode 2;;
  set C demo_args;;
  text_ln encode "Hello Workd";;
  ln encode 1;;
  set C demo_args_right;;
  text_ln encode "Test success!";;
  cut C "FULL".

(** ** Running the monad *)

Lemma sends_nil (self : NetworkPrinter) : sends self [] = self.
Proof.
  destruct self as [h p t ac cp [s r]]. unfold sends, with_device. simpl.
  by rewrite app_nil_r.
Qed.

Lemma sends_sends (self : NetworkPrinter) (l1 l2 : list bytes) :
  sends (sends self l1) l2 = sends self (l1 ++ l2).
Proof.
  unfold sends, with_device. simpl. by rewrite app_assoc.
Qed.

Lemma wire_sends (self : NetworkPrinter) (msgs : list bytes) :
  wire (sends self msgs) = wire self ++ concat msgs.
Proof. unfold wire, sends. simpl. apply concat_app. Qed.

Lemma bind_raw {B : Type} (msg : bytes) (k : unit -> M B) (self : NetworkPrinter) :
  (_raw msg ≫= k) self = k tt (sends self [msg]).
Proof. reflexivity. Qed.

Lemma bind_lift_ok {A B : Type} (a : A) (k : A -> M B) (self : NetworkPrinter) :
  (lift (Ok a) ≫= k) self = k a self.
Proof. reflexivity. Qed.

Lemma bind_lift_raise {A B : Type} (e : exn) (k : A -> M B) (self : NetworkPrinter) :
  (lift (Raise e) ≫= k) self = (Raise e, self).
Proof. reflexivity. Qed.

Lemma bind_ret {A B : Type} (a : A) (k : A -> M B) (self : NetworkPrinter) :
  (mret a ≫= k) self = k a self.
Proof. reflexivity. Qed.

Lemma bind_getitem `{Countable K} {B : Type} (d : gmap K bytes) (k : K)
    (f : bytes -> M B) (self : NetworkPrinter) :
  (lift (getitem d k) ≫= f) self
  = match d !! k with
    | Some c => f c self
    | None => (Raise KeyError, self)
    end.
Proof. unfold getitem. by destruct (d !! k). Qed.

(** One table lookup of a method body: go on with the entry, or stop with
    what has been sent so far. *)
Ltac step_lookup :=
  rewrite bind_getitem;
  match goal with |- context [?d !! ?k] => destruct (d !! k) end;
  [ rewrite ?bind_raw
  | simpl; rewrite ?sends_sends, ?sends_nil; reflexivity ].

(** ** Text *)

Lemma format_newline (txt : string) : format ("{}" +:+ NL) txt = txt +:+ NL.
Proof. reflexivity. Qed.

Lemma code_points_app (s t : string) :
  code_points (s +:+ t) = code_points s ++ code_points t.
Proof.
  unfold code_points. induction s as [|c s IH]; simpl; [done|].
  by rewrite IH.
Qed.

Lemma str_mul_succ (s : string) (n : nat) :
  str_mul s (Z.of_nat (S n)) = s +:+ str_mul s (Z.of_nat n).
Proof.
  unfold str_mul. rewrite !Nat2Z.id. reflexivity.
Qed.

(** [count] newlines are [count] bytes [0x0A]. *)
Lemma code_points_newlines (n : nat) :
  code_points (str_mul NL (Z.of_nat n)) = repeat 10 n.
Proof.
  induction n as [|n IH]; [reflexivity|].
  rewrite str_mul_succ, code_points_app, IH. reflexivity.
Qed.

Lemma repeat_Forall {A : Type} (P : A -> Prop) (x : A) (n : nat) :
  P x -> Forall P (repeat x n).
Proof. intros Hx. induction n; simpl; constructor; auto. Qed.

Lemma text_encoded (encode : string -> string -> result bytes)
    (txt : string) (b : bytes) (self : NetworkPrinter) :
  encode txt (codepage self) = Ok b ->
  text encode txt self = (Ok tt, sends self [b]).
Proof.
  intros E. unfold text, get_codepage.
  change ((lift (encode txt (codepage self)) ≫= fun b => _raw b) self = (Ok tt, sends self [b])).
  rewrite E. reflexivity.
Qed.

(** C9. For every string [txt], [text_ln txt] does exactly what
    [text (txt + "\n")] does: the same bytes are written, or the same
    error is raised, whatever the codec and the state of the printer. *)
Theorem text_ln_is_text_newline (encode : string -> string -> result bytes)
    (txt : string) (self : NetworkPrinter) :
  text_ln encode txt self = text encode (txt +:+ NL) self.
Proof.
  unfold text_ln. by rewrite format_newline.
Qed.

Lemma ln_positive (encode : string -> string -> result bytes)
    (count : Z) (self : NetworkPrinter) :
  count > 0 -> ln encode count self = text encode (str_mul NL count) self.
Proof.
  intros Hpos. unfold ln.
  destruct (Z.ltb_spec count 0); [lia|].
  rewrite Z.gtb_ltb. destruct (Z.ltb_spec 0 count); [done|lia].
Qed.

(** Code page 866 keeps the 7-bit characters. *)
Lemma cp866_ascii_compatible : ascii_compatible sample_encode "cp866".
Proof.
  intros txt Htxt. unfold sample_encode. simpl.
  assert (mapM cp866_byte (code_points txt) = Some (code_points txt)) as ->; [|done].
  apply mapM_Some. induction Htxt as [|b l Hb _ IH]; constructor; [|done].
  unfold cp866_byte. destruct (Z.ltb_spec b 128); [done|lia].
Qed.




(** ** Cutting *)

(** Against each letter of [PART], upper-casing one side is the same as
    lower-casing both. *)
Lemma upper_char_letter (a L : ascii) :
  In L ["P"; "A"; "R"; "T"]%char ->
  Ascii.eqb (upper_char a) L = Ascii.eqb (lower_char a) (lower_char L).
Proof.
  intros HL. simpl in HL.
  destruct HL as [<-|[<-|[<-|[<-|[]]]]];
    destruct a as [[] [] [] [] [] [] [] []]; reflexivity.
Qed.

Lemma upper_is_PART (mode : string) :
  String.eqb (upper mode) "PART" = ci_eqb mode "PART".
Proof.
  destruct mode as [|c1 [|c2 [|c3 [|c4 [|c5 rest]]]]]; simpl; try reflexivity.
  all: rewrite ?(upper_char_letter _ "P"), ?(upper_char_letter _ "A"),
         ?(upper_char_letter _ "R"), ?(upper_char_letter _ "T") by (simpl; tauto).
  all: try reflexivity.
  all: repeat (match goal with
               | |- context [Ascii.eqb ?a ?b] => destruct (Ascii.eqb a b)
               end); simpl; try reflexivity.
Qed.

Lemma cut_run (C : commands) (mode : string) (self : NetworkPrinter) :
  cut C mode self
  = (Ok tt,
     sends self [repeat 10 6%nat;
                 if ci_eqb mode "PART" then PAPER_PART_CUT C
                 else PAPER_FULL_CUT C]).
Proof.
  unfold cut. rewrite bind_raw, upper_is_PART.
  destruct (ci_eqb mode "PART"); unfold _raw; by rewrite sends_sends.
Qed.

Example cut_PART (C : commands) (self : NetworkPrinter) :
  cut C "PART" self = (Ok tt, sends self [repeat 10 6%nat; PAPER_PART_CUT C]) /\
  cut C "part" self = (Ok tt, sends self [repeat 10 6%nat; PAPER_PART_CUT C]).
Proof. split; by rewrite cut_run. Qed.

Example cut_other (C : commands) (self : NetworkPrinter) :
  Forall (fun mode =>
            cut C mode self = (Ok tt, sends self [repeat 10 6%nat; PAPER_FULL_CUT C]))
         ["full"; "FULL"; "xyz"; ""; "PARTS"; "par"].
Proof. repeat constructor; by rewrite cut_run. Qed.

(** C7. For every mode string, [cut] raises nothing and sends exactly two
    buffers: six newline bytes, then one cut command, the partial cut when
    the mode equals [PART] up to case and the full cut for every other
    string; on the wire the six newlines come first and the command ends
    the stream. *)
Theorem cut_sends (C : commands) (mode : string) (self : NetworkPrinter) :
  let command :=
    if ci_eqb mode "PART" then PAPER_PART_CUT C else PAPER_FULL_CUT C in
  cut C mode self = (Ok tt, sends self [[10; 10; 10; 10; 10; 10]; command]) /\
  wire (snd (cut C mode self))
  = wire self ++ [10; 10; 10; 10; 10; 10] ++ command /\
  (command = PAPER_PART_CUT C \/ command = PAPER_FULL_CUT C).
Proof.
  intros command. rewrite cut_run. split; [reflexivity|]. split.
  - simpl snd. rewrite wire_sends. simpl. by rewrite app_nil_r.
  - subst command. destruct (ci_eqb mode "PART"); tauto.
Qed.

(** ** Status queries *)

Lemma bind_query_status {B : Type} (mode : bytes) (k : bytes -> M B)
    (self : NetworkPrinter) :
  (query_status mode ≫= k) self
  = k (take 16 (rx (device self))) (polled self mode).
Proof. reflexivity. Qed.

(** Masking with a single bit tests that bit. *)
Lemma land_pow2_zero (b k : Z) :
  0 <= k -> (Z.land b (2 ^ k) = 0 <-> Z.testbit b k = false).
Proof.
  intros Hk. split.
  - intros H. apply (f_equal (fun z => Z.testbit z k)) in H.
    rewrite Z.land_spec, Z.pow2_bits_true, Z.bits_0 in H by lia.
    by rewrite andb_true_r in H.
  - intros H. apply Z.bits_inj'. intros n Hn.
    rewrite Z.land_spec, Z.bits_0, Z.pow2_bits_eqb by lia.
    destruct (Z.eqb_spec k n) as [->|]; [by rewrite H|apply andb_false_r].
Qed.

(** C3. For every answer of the printer to the online query, [is_online]
    returns [False] when the answer is empty, and for an answer starting
    with the byte [b] it returns [True] exactly when [b] masked with the
    online mask is zero, that is, for a mask of one bit, exactly when that
    bit of [b] is not set. *)
Theorem is_online_decode (C : commands) (self : NetworkPrinter) :
  (rx (device self) = [] -> fst (is_online C self) = Ok false) /\
  (forall (b : Z) (rest : bytes), rx (device self) = b :: rest ->
     exists online : bool,
       fst (is_online C self) = Ok online /\
       (online = true <-> Z.land b (RT_MASK_ONLINE C) = 0) /\
       (forall k : Z, 0 <= k -> RT_MASK_ONLINE C = 2 ^ k ->
          (online = true <-> Z.testbit b k = false))) /\
  snd (is_online C self) = polled self (RT_STATUS_ONLINE C).
Proof.
  unfold is_online. rewrite bind_query_status. repeat split.
  - intros ->. reflexivity.
  - intros b rest ->. exists (Z.land b (RT_MASK_ONLINE C) =? 0).
    split; [reflexivity|]. split; [apply Z.eqb_eq|].
    intros k Hk ->. rewrite Z.eqb_eq. by apply land_pow2_zero.
  - destruct (rx (device self)); reflexivity.
Qed.

(** C2. For every answer of the printer to the paper query,
    [paper_status] returns 2 when the answer is empty; for an answer
    starting with the byte [b] it tries the no-paper, the low-paper and the
    paper-present mask in that order and returns 0, 1 or 2 for the first
    one that [b] contains; when [b] contains none of them it returns
    [None], which is none of the integers. *)
Theorem paper_status_decode (C : commands) (self : NetworkPrinter) :
  (rx (device self) = [] -> fst (paper_status C self) = Ok (PyInt 2)) /\
  (forall (b : Z) (rest : bytes), rx (device self) = b :: rest ->
     let hit (mask : Z) := Z.land b mask = mask in
     (hit (RT_MASK_NOPAPER C) -> fst (paper_status C self) = Ok (PyInt 0)) /\
     (~ hit (RT_MASK_NOPAPER C) -> hit (RT_MASK_LOWPAPER C) ->
        fst (paper_status C self) = Ok (PyInt 1)) /\
     (~ hit (RT_MASK_NOPAPER C) -> ~ hit (RT_MASK_LOWPAPER C) ->
        hit (RT_MASK_PAPER C) -> fst (paper_status C self) = Ok (PyInt 2)) /\
     (~ hit (RT_MASK_NOPAPER C) -> ~ hit (RT_MASK_LOWPAPER C) ->
        ~ hit (RT_MASK_PAPER C) ->
        fst (paper_status C self) = Ok PyNone /\
        forall n : Z, fst (paper_status C self) <> Ok (PyInt n))) /\
  snd (paper_status C self) = polled self (RT_STATUS_PAPER C).
Proof.
  unfold paper_status. rewrite bind_query_status. split; [|split].
  - intros ->. reflexivity.
  - intros b rest ->. cbv zeta. simpl.
    unfold mbind, M_bind, lift, mret, M_ret. simpl.
    destruct (Z.eqb_spec (Z.land b (RT_MASK_NOPAPER C)) (RT_MASK_NOPAPER C));
    destruct (Z.eqb_spec (Z.land b (RT_MASK_LOWPAPER C)) (RT_MASK_LOWPAPER C));
    destruct (Z.eqb_spec (Z.land b (RT_MASK_PAPER C)) (RT_MASK_PAPER C));
    simpl; repeat split; intros; try done.
  - destruct (rx (device self)) as [|b rest]; [reflexivity|]. simpl.
    unfold mbind, M_bind, lift, mret, M_ret. simpl.
    repeat (match goal with
            | |- context [Z.eqb ?a ?b] => destruct (Z.eqb a b)
            end); reflexivity.
Qed.

(** ** Styles *)

(** The style commands of [set], one lookup after the other: the call
    sends the entries found before the first missing key, and raises
    [KeyError] if there is one. *)
Lemma set_style_run (C : commands) (a : set_args) (self : NetworkPrinter) :
  set_style C a self
  = (outcome (style_commands C a), sends self (emitted (style_commands C a))).
Proof.
  unfold set_style, style_commands, outcome.
  do 4 step_lookup.
  change (int2byte 1) with (Ok [1]). rewrite bind_lift_ok, bind_raw.
  step_lookup.
  destruct (Z.eqb_spec (density a) 9) as [E|E]; simpl negb; cbv iota;
    destruct (decide (density a = 9)) as [E'|E']; try contradiction.
  - rewrite bind_ret. step_lookup.
    unfold _raw. simpl. by rewrite !sends_sends.
  - unfold mbind at 1. unfold M_bind at 1. step_lookup.
    unfold _raw at 1. cbv iota beta.
    step_lookup. unfold _raw. simpl. by rewrite !sends_sends.
Qed.

Lemma set_run (C : commands) (a : set_args) (self : NetworkPrinter) :
  set C a self
  = match set_size C a self with
    | (Ok _, self1) => set_style C a self1
    | (Raise e, self1) => (Raise e, self1)
    end.
Proof. reflexivity. Qed.

(** The size block *)

Lemma multiplier_int (v : pyval) : multiplier v -> isinstance_int v = true.
Proof. intros (n & Hn & _). by destruct v. Qed.

Lemma py_between_number (v : pyval) :
  is_number v ->
  exists c : bool, py_between 1 v 8 = Ok c /\
    (isinstance_int v = true -> (c = true <-> multiplier v)).
Proof.
  unfold py_between, multiplier. destruct v as [|b|n|x|s]; simpl; try done; intros _.
  - destruct b; simpl; eexists; (split; [reflexivity|]); intros _; split; try done.
    + intros _. exists 1. split; [done|lia].
    + intros (n & [= <-] & Hn). lia.
  - destruct (Z.leb_spec 1 n); simpl; eexists; (split; [reflexivity|]); intros _.
    + rewrite Z.leb_le. split.
      * intros Hn. exists n. split; [done|lia].
      * intros (m & [= <-] & Hm). lia.
    + split; [done|]. intros (m & [= <-] & Hm). lia.
  - destruct (int_le_float 1 x); simpl; eexists; (split; [reflexivity|]); done.
Qed.

Lemma size_guard_multipliers (w h : pyval) :
  is_number w -> is_number h ->
  exists ok : bool, size_guard w h = Ok ok /\
    (ok = true <-> multiplier w /\ multiplier h).
Proof.
  intros Hw Hh. unfold size_guard.
  destruct (py_between_number w Hw) as (cw & -> & Ew).
  destruct (py_between_number h Hh) as (ch & -> & Eh).
  simpl. destruct cw; simpl.
  - destruct ch; simpl; eexists; (split; [reflexivity|]).
    + rewrite andb_true_iff. split.
      * intros [Iw Ih]. split; [by apply Ew|by apply Eh].
      * intros [Mw Mh]. split; by apply multiplier_int.
    + split; [done|]. intros [_ Mh].
      pose proof (multiplier_int _ Mh) as Ih. by apply Eh in Mh.
  - eexists. split; [reflexivity|]. split; [done|]. intros [Mw _].
    pose proof (multiplier_int _ Mw) as Iw. by apply Ew in Mw.
Qed.

Lemma set_size_skip (C : commands) (a : set_args) (self : NetworkPrinter) :
  custom_size a = true -> size_guard (width a) (height a) = Ok false ->
  set_size C a self = (Ok tt, self).
Proof.
  intros Hc Hg. unfold set_size. rewrite Hc, Hg. reflexivity.
Qed.

Lemma set_size_raise (C : commands) (a : set_args) (self : NetworkPrinter) (e : exn) :
  custom_size a = true -> size_guard (width a) (height a) = Raise e ->
  set_size C a self = (Raise e, self).
Proof.
  intros Hc Hg. unfold set_size. rewrite Hc, Hg. reflexivity.
Qed.

Lemma set_size_custom (C : commands) (a : set_args) (self : NetworkPrinter)
    (w h wv hv : Z) :
  custom_size a = true -> width a = PyInt w -> height a = PyInt h ->
  1 <= w <= 8 -> 1 <= h <= 8 ->
  style_width (TXT_STYLE C) !! w = Some wv ->
  style_height (TXT_STYLE C) !! h = Some hv ->
  0 <= wv + hv <= 255 ->
  set_size C a self = (Ok tt, sends self [TXT_SIZE C ++ [wv + hv]]).
Proof.
  intros Hc Hw Hh Rw Rh Lw Lh Hb. unfold set_size. rewrite Hc, Hw, Hh.
  unfold size_guard, py_between. simpl.
  assert ((1 <=? w) = true) as -> by lia. assert ((w <=? 8) = true) as -> by lia.
  assert ((1 <=? h) = true) as -> by lia. assert ((h <=? 8) = true) as -> by lia.
  simpl. rewrite bind_lift_ok.
  unfold py_getitem. simpl. rewrite Lw, Lh. rewrite !bind_lift_ok.
  unfold int2byte.
  assert ((0 <=? wv + hv) && (wv + hv <=? 255) = true) as -> by lia.
  reflexivity.
Qed.

(** A high and a low nibble share no bit: their sum is their bitwise or,
    and each can be read back from the packed byte. *)
Lemma nibble_pack (hi lo : Z) :
  0 <= lo < 16 ->
  16 * hi + lo = Z.lor (16 * hi) lo /\
  Z.shiftr (16 * hi + lo) 4 = hi /\
  Z.land (16 * hi + lo) 15 = lo.
Proof.
  intros Hlo.
  assert (Z.land (16 * hi) lo = 0) as Hdisjoint.
  { apply Z.bits_inj'. intros n Hn. rewrite Z.land_spec, Z.bits_0.
    destruct (Z.lt_ge_cases n 4) as [Hlow|Hhigh].
    - replace (16 * hi) with (Z.shiftl hi 4) by (rewrite Z.shiftl_mul_pow2; lia).
      by rewrite Z.shiftl_spec_low.
    - rewrite (Z.bits_above_log2 lo n); [apply andb_false_r|lia|].
      destruct (Z.eq_dec lo 0) as [->|]; [simpl; lia|].
      apply Z.lt_le_trans with 4; [|done].
      apply Z.log2_lt_pow2; lia. }
  split; [|split].
  - rewrite Z.add_nocarry_lxor by done. by apply Z.lxor_lor.
  - rewrite Z.shiftr_div_pow2 by lia. change (2 ^ 4) with 16.
    rewrite Z.mul_comm, Z.div_add_l by lia. rewrite Z.div_small by lia. lia.
  - change 15 with (Z.ones 4). rewrite Z.land_ones by lia. change (2 ^ 4) with 16.
    rewrite Z.add_comm, Z.mul_comm, Z.mod_add by lia. by apply Z.mod_small.
Qed.

Lemma escpos_size_tables : size_tables escpos_style.
Proof.
  intros n Hn.
  assert (In n [1;2;3;4;5;6;7;8]) as I by (simpl; lia). simpl in I.
  repeat (destruct I as [<-|I]; [by vm_compute|]). done.
Qed.

Lemma escpos_size_names : size_names escpos_style.
Proof.
  unfold size_names.
  repeat (constructor; [eexists; vm_compute; reflexivity|]).
  constructor.
Qed.


Lemma escpos_align_keys : align_keys escpos_style.
Proof.
  intros s. simpl.
  rewrite !lookup_insert_is_Some, lookup_singleton_is_Some.
  split; [tauto|].
  destruct (decide ("left" = s)); [tauto|].
  destruct (decide ("center" = s)); tauto.
Qed.

Lemma escpos_underline_keys : underline_keys escpos_style.
Proof.
  intros n. simpl.
  rewrite !lookup_insert_is_Some, lookup_singleton_is_Some. lia.
Qed.

(** C1. For every width and height in 1..8, [set] with [custom_size] sends
    first the size-select command followed by exactly one size byte, the
    bitwise or of the width entry and the height entry of the multiplier
    tables (which the code adds); the width fills the high nibble of that
    byte and the height the low one, so that 1x1 gives 0x00 and 8x8 gives
    0x77. *)
Theorem set_custom_size (C : commands) (a : set_args) (self : NetworkPrinter)
    (w h : Z) :
  size_tables (TXT_STYLE C) ->
  custom_size a = true -> width a = PyInt w -> height a = PyInt h ->
  1 <= w <= 8 -> 1 <= h <= 8 ->
  exists wv hv : Z,
    style_width (TXT_STYLE C) !! w = Some wv /\
    style_height (TXT_STYLE C) !! h = Some hv /\
    let size_byte := Z.lor wv hv in
    set_size C a self = (Ok tt, sends self [TXT_SIZE C ++ [size_byte]]) /\
    set C a self = set_style C a (sends self [TXT_SIZE C ++ [size_byte]]) /\
    Z.shiftr size_byte 4 = w - 1 /\ Z.land size_byte 15 = h - 1 /\
    (w = 1 -> h = 1 -> size_byte = 0x00) /\
    (w = 8 -> h = 8 -> size_byte = 0x77).
Proof.
  intros HT Hc Hw Hh Rw Rh.
  destruct (HT w Rw) as [Lw _]. destruct (HT h Rh) as [_ Lh].
  destruct (nibble_pack (w - 1) (h - 1)) as (Hor & Hhi & Hlo); [lia|].
  exists (16 * (w - 1)), (h - 1). split; [done|]. split; [done|].
  cbv zeta. rewrite <- Hor.
  assert (set_size C a self
          = (Ok tt, sends self [TXT_SIZE C ++ [16 * (w - 1) + (h - 1)]])) as Hs.
  { apply (set_size_custom C a self w h); try done. lia. }
  split; [done|]. split; [by rewrite set_run, Hs|].
  split; [done|]. split; [done|]. split; intros -> ->; reflexivity.
Qed.

Lemma set_custom_size_witness :
  size_tables (TXT_STYLE escpos) /\
  set escpos (custom_args (PyInt 8) (PyInt 8)) (connected "cp866" [])
  = set_style escpos (custom_args (PyInt 8) (PyInt 8))
      (sends (connected "cp866" []) [[GS; 0x21; 0x77]]).
Proof.
  split; [exact escpos_size_tables|].
  destruct (set_custom_size escpos (custom_args (PyInt 8) (PyInt 8))
              (connected "cp866" []) 8 8 escpos_size_tables
              eq_refl eq_refl eq_refl ltac:(lia) ltac:(lia))
    as (wv & hv & Lw & Lh & _ & Hset & _).
  vm_compute in Lw, Lh. injection Lw as <-. injection Lh as <-.
  exact Hset.
Defined.

Lemma set_size_double (C : commands) (a : set_args) (self : NetworkPrinter) :
  custom_size a = false ->
  set_size C a self
  = match style_size (TXT_STYLE C) !! size_mode (double_width a) (double_height a) with
    | Some c => (Ok tt, sends self [TXT_NORMAL C; c])
    | None => (Raise KeyError, sends self [TXT_NORMAL C])
    end.
Proof.
  intros Hc. unfold set_size. rewrite Hc, bind_raw.
  destruct (double_width a), (double_height a); simpl;
    rewrite bind_getitem;
    match goal with |- context [?d !! ?k] => destruct (d !! k) end;
    unfold _raw; by rewrite ?sends_sends.
Qed.

(** C5. For every pair of doubling flags, [set] without [custom_size]
    sends the normal-size reset and then exactly one size-mode command, the
    entry of the size table chosen by the precedence both doubled, width
    doubled, height doubled, normal; a doubled width with a plain height
    selects the entry [2w] and nothing else. *)
Theorem set_double_size (C : commands) (a : set_args) (self : NetworkPrinter) :
  size_names (TXT_STYLE C) ->
  custom_size a = false ->
  exists c : bytes,
    style_size (TXT_STYLE C) !! size_mode (double_width a) (double_height a)
      = Some c /\
    set_size C a self = (Ok tt, sends self [TXT_NORMAL C; c]) /\
    set C a self = set_style C a (sends self [TXT_NORMAL C; c]) /\
    (double_width a = true -> double_height a = false ->
       style_size (TXT_STYLE C) !! "2w" = Some c).
Proof.
  intros HT Hc.
  assert (is_Some (style_size (TXT_STYLE C)
                     !! size_mode (double_width a) (double_height a))) as [c Lc].
  { unfold size_names in HT. rewrite !List.Forall_cons_iff in HT.
    destruct HT as (H2x & H2w & H2h & Hn & _).
    by destruct (double_width a), (double_height a). }
  exists c. split; [done|].
  assert (set_size C a self = (Ok tt, sends self [TXT_NORMAL C; c])) as Hs.
  { by rewrite set_size_double, Lc. }
  split; [done|]. split; [by rewrite set_run, Hs|].
  intros Hw Hh. by rewrite Hw, Hh in Lc.
Qed.

Lemma set_double_size_witness :
  size_names (TXT_STYLE escpos) /\
  set_size escpos (double_args true false) (connected "cp866" [])
  = (Ok tt, sends (connected "cp866" []) [[ESC; 0x21; 0]; [ESC; 0x21; 0x20]]).
Proof.
  split; [exact escpos_size_names|].
  destruct (set_double_size escpos (double_args true false)
              (connected "cp866" []) escpos_size_names eq_refl)
    as (c & Lc & Hs & _).
  vm_compute in Lc. injection Lc as <-. exact Hs.
Defined.

(** The range comparison comes before the [isinstance] tests: a width
    that is not a number makes it raise [TypeError] before anything is
    sent. *)
Lemma set_size_not_number (C : commands) (a : set_args) (self : NetworkPrinter) :
  custom_size a = true -> ~ is_number (width a) ->
  set_size C a self = (Raise TypeError, self).
Proof.
  intros Hc Hw. apply set_size_raise; [done|].
  unfold size_guard, py_between. by destruct (width a).
Qed.

Lemma classic_number (v : pyval) : is_number v \/ ~ is_number v.
Proof. destruct v; simpl; tauto. Qed.

(** The size guard on every pair of values: when its comparisons only
    meet numbers it returns a boolean, true exactly for two integer
    multipliers in 1..8; otherwise a comparison raises [TypeError]. *)
Lemma size_guard_cases (w h : pyval) :
  (comparable w h ->
     exists ok : bool, size_guard w h = Ok ok /\
       (ok = true <-> multiplier w /\ multiplier h)) /\
  (~ comparable w h -> size_guard w h = Raise TypeError).
Proof.
  unfold comparable, within_range.
  destruct (classic_number w) as [Nw|Nw].
  - destruct (py_between_number w Nw) as (cw & Hcw & Ew).
    destruct cw.
    + destruct (classic_number h) as [Nh|Nh].
      * split; [intros _; by apply size_guard_multipliers|tauto].
      * split; [intros [_ [?|?]]; done|]. intros _.
        unfold size_guard. rewrite Hcw. simpl.
        unfold py_between. by destruct h.
    + split; [|intros Hn; exfalso; apply Hn; split; [done|right; by rewrite Hcw]].
      intros _. exists false. unfold size_guard. rewrite Hcw.
      split; [done|]. split; [done|]. intros [Mw _].
      pose proof (multiplier_int _ Mw) as Iw. by apply Ew in Mw.
  - split; [tauto|]. intros _.
    unfold size_guard, py_between. by destruct w.
Qed.

(** C6, as amended. For every call of [set] with [custom_size] whose width
    or height is outside 1..8 or not an integer: when the range
    comparisons of the guard only meet numbers (the width is an int, a
    bool or a float, and so is the height unless the width is already out
    of range), the size block sends nothing and raises nothing, and the
    call goes on with the style commands as if no size had been asked
    for; in the other case the comparison raises [TypeError] and nothing
    is sent. *)
Theorem set_custom_size_skipped (C : commands) (a : set_args)
    (self : NetworkPrinter) :
  custom_size a = true ->
  ~ multiplier (width a) \/ ~ multiplier (height a) ->
  (comparable (width a) (height a) ->
     set_size C a self = (Ok tt, self) /\ set C a self = set_style C a self) /\
  (~ comparable (width a) (height a) ->
     set C a self = (Raise TypeError, self)).
Proof.
  intros Hc Hbad.
  destruct (size_guard_cases (width a) (height a)) as [Hnum Hraise]. split.
  - intros Hcmp. destruct (Hnum Hcmp) as (ok & Hg & Hok).
    assert (ok = false) as ->.
    { destruct ok; [|done]. destruct Hok as [Hok _]. specialize (Hok eq_refl). tauto. }
    assert (set_size C a self = (Ok tt, self)) as Hs by by apply set_size_skip.
    split; [done|]. by rewrite set_run, Hs.
  - intros Hcmp. rewrite set_run, (set_size_raise C a self TypeError); auto.
Qed.

Lemma set_custom_size_skipped_witness :
  ~ multiplier (PyInt 0) /\ comparable (PyInt 0) PyNone /\
  set_size escpos (custom_args (PyInt 0) PyNone) (connected "cp866" [])
  = (Ok tt, connected "cp866" []).
Proof.
  assert (~ multiplier (PyInt 0)) as Hzero.
  { intros (n & E & Hn). injection E as <-. lia. }
  assert (comparable (PyInt 0) PyNone) as Hcmp.
  { split; [exact I|]. right. intros H. discriminate H. }
  split; [exact Hzero|]. split; [exact Hcmp|].
  exact (proj1 (proj1 (set_custom_size_skipped escpos
                         (custom_args (PyInt 0) PyNone)
                         (connected "cp866" []) eq_refl (or_introl Hzero))
                 Hcmp)).
Defined.

(** C6, as stated, fails: the width ["2"] is not an integer, yet the call
    raises [TypeError] instead of skipping the size command. *)
Lemma set_str_width_raises :
  custom_size (custom_args (PyStr "2") (PyInt 2)) = true /\
  ~ multiplier (width (custom_args (PyStr "2") (PyInt 2))) /\
  set escpos (custom_args (PyStr "2") (PyInt 2)) (connected "cp866" [])
  = (Raise TypeError, connected "cp866" []).
Proof.
  split; [reflexivity|]. split; [|reflexivity].
  intros (n & [=] & _).
Qed.

Lemma outcome_ok (cmds : list (option bytes)) :
  Forall is_Some cmds -> outcome cmds = Ok tt.
Proof.
  intros H. unfold outcome.
  assert (forallb (fun c : option bytes => bool_decide (is_Some c)) cmds = true) as ->; [|done].
  induction H as [|c cmds Hc _ IH]; simpl; [done|].
  by rewrite IH, bool_decide_eq_true_2.
Qed.

Lemma outcome_missing (cmds : list (option bytes)) :
  In None cmds -> outcome cmds = Raise KeyError.
Proof.
  intros H. unfold outcome.
  assert (forallb (fun c : option bytes => bool_decide (is_Some c)) cmds = false) as ->; [|done].
  induction cmds as [|c cmds IH]; simpl in *; [done|].
  destruct H as [->|H].
  - rewrite bool_decide_eq_false_2; [done|]. by intros [? ?].
  - rewrite IH by done. apply andb_false_r.
Qed.

(** The demo call on the standard tables: size 5x5 is the byte 0x44, and
    no density command is sent for the default density 9. *)
Example set_demo :
  set escpos demo_args (connected "cp866" [])
  = (Ok tt,
     sends (connected "cp866" [])
       [[GS; 0x21; 0x44]; [ESC; 0x7b; 0]; [GS; 0x62; 0]; [ESC; 0x45; 1];
        [ESC; 0x2d; 0]; [ESC; 0x4d; 1]; [ESC; 0x61; 1]; [GS; 0x42; 0]]).
Proof. by vm_compute. Qed.

(** A density in the table is sent between alignment and invert. *)
Example set_density_three :
  set_style escpos (density_args 3) (connected "cp866" [])
  = (Ok tt,
     sends (connected "cp866" [])
       [[ESC; 0x7b; 0]; [GS; 0x62; 0]; [ESC; 0x45; 0]; [ESC; 0x2d; 0];
        [ESC; 0x4d; 1]; [ESC; 0x61; 0]; [GS; 0x7c; 3]; [GS; 0x42; 0]]).
Proof. by vm_compute. Qed.

(** A density that is neither 9 nor a key of the table is looked up all
    the same: the call stops there with [KeyError], invert unsent. *)
Example set_density_ten :
  set_style escpos (density_args 10) (connected "cp866" [])
  = (Raise KeyError,
     sends (connected "cp866" [])
       [[ESC; 0x7b; 0]; [GS; 0x62; 0]; [ESC; 0x45; 0]; [ESC; 0x2d; 0];
        [ESC; 0x4d; 1]; [ESC; 0x61; 0]]).
Proof. by vm_compute. Qed.





(** * Further properties *)

(** ** More on the size block *)

Lemma py_getitem_int {V : Type} (d : gmap Z V) (v : pyval) (n : Z) (x : V) :
  as_int v = Some n -> d !! n = Some x -> py_getitem d v = Ok x.
Proof.
  intros Hv Hx. unfold py_getitem.
  destruct v; simpl in *; try done; injection Hv as ->; by rewrite Hx.
Qed.

Lemma size_guard_multiplier (w h : pyval) :
  multiplier w -> multiplier h -> size_guard w h = Ok true.
Proof.
  intros Mw Mh.
  assert (is_number w) as Nw by (destruct Mw as (? & ? & _); by destruct w).
  assert (is_number h) as Nh by (destruct Mh as (? & ? & _); by destruct h).
  destruct (size_guard_multipliers w h Nw Nh) as (ok & -> & Hok).
  f_equal. by apply Hok.
Qed.

Lemma set_size_multiplier (C : commands) (a : set_args) (self : NetworkPrinter)
    (w h : Z) :
  size_tables (TXT_STYLE C) -> custom_size a = true ->
  as_int (width a) = Some w -> as_int (height a) = Some h ->
  1 <= w <= 8 -> 1 <= h <= 8 ->
  set_size C a self
  = (Ok tt, sends self [TXT_SIZE C ++ [16 * (w - 1) + (h - 1)]]).
Proof.
  intros HT Hc Hw Hh Rw Rh. unfold set_size. rewrite Hc.
  rewrite size_guard_multiplier by (by eexists). rewrite bind_lift_ok.
  destruct (HT w Rw) as [Lw _]. destruct (HT h Rh) as [_ Lh].
  rewrite (py_getitem_int _ _ _ _ Hw Lw), bind_lift_ok.
  rewrite (py_getitem_int _ _ _ _ Hh Lh), bind_lift_ok.
  unfold int2byte.
  assert ((0 <=? 16 * (w - 1) + (h - 1)) && (16 * (w - 1) + (h - 1) <=? 255) = true)
    as -> by lia.
  reflexivity.
Qed.

Lemma set_size_on_numbers (C : commands) (a : set_args) (self : NetworkPrinter) :
  size_tables (TXT_STYLE C) -> size_names (TXT_STYLE C) ->
  custom_size a = false \/ (is_number (width a) /\ is_number (height a)) ->
  exists msgs : list bytes,
    set_size C a self = (Ok tt, sends self msgs) /\ (length msgs <= 2)%nat /\
    (custom_size a = true ->
       (multiplier (width a) /\ multiplier (height a) -> length msgs = 1%nat) /\
       (~ (multiplier (width a) /\ multiplier (height a)) -> msgs = [])).
Proof.
  intros HT HN Hargs. destruct (custom_size a) eqn:Hc.
  - destruct Hargs as [|[Nw Nh]]; [done|].
    destruct (size_guard_multipliers _ _ Nw Nh) as (ok & Hg & Hok).
    destruct ok.
    + destruct Hok as [Hok _]. destruct (Hok eq_refl) as [Mw Mh].
      destruct Mw as (w & Hw & Rw). destruct Mh as (h & Hh & Rh).
      eexists. split; [by apply (set_size_multiplier C a self w h)|].
      split; [simpl; lia|]. intros _. split; [done|].
      intros Hnot. exfalso. apply Hnot. split; by eexists.
    + exists []. rewrite sends_nil. split; [by apply set_size_skip|].
      split; [simpl; lia|]. intros _. split; [|done].
      intros HM. apply Hok in HM. done.
  - rewrite set_size_double by done.
    unfold size_names in HN. rewrite !List.Forall_cons_iff in HN.
    destruct HN as (H2x & H2w & H2h & Hn & _).
    assert (is_Some (style_size (TXT_STYLE C)
                       !! size_mode (double_width a) (double_height a))) as [c ->].
    { by destruct (double_width a), (double_height a). }
    eexists. split; [done|]. split; [simpl; lia|]. done.
Qed.

(** X2. With the standard size tables the size block of [set] never
    raises on numbers: it sends at most two buffers, exactly one when a
    custom size is asked for with two integer multipliers in 1..8, and
    none when a custom size is asked for with anything else; the call then
    goes on with the style commands. *)
Theorem set_size_numbers (C : commands) (a : set_args) (self : NetworkPrinter) :
  size_tables (TXT_STYLE C) -> size_names (TXT_STYLE C) ->
  custom_size a = false \/ (is_number (width a) /\ is_number (height a)) ->
  exists msgs : list bytes,
    set_size C a self = (Ok tt, sends self msgs) /\
    set C a self = set_style C a (sends self msgs) /\
    (length msgs <= 2)%nat /\
    (custom_size a = true ->
       (multiplier (width a) /\ multiplier (height a) -> length msgs = 1%nat) /\
       (~ (multiplier (width a) /\ multiplier (height a)) -> msgs = [])).
Proof.
  intros HT HN Hargs.
  destruct (set_size_on_numbers C a self HT HN Hargs) as (msgs & Hs & Hlen & Hc).
  exists msgs. split; [done|]. split; [by rewrite set_run, Hs|]. by split.
Qed.

Lemma outcome_ok_iff (cmds : list (option bytes)) :
  outcome cmds = Ok tt <-> Forall is_Some cmds.
Proof.
  split; [|apply outcome_ok].
  intros H. apply Forall_forall. intros c Hc.
  destruct c as [x|]; [by eexists|].
  apply list_elem_of_In in Hc. by rewrite (outcome_missing cmds Hc) in H.
Qed.

(** X1. On tables with the standard keys, a call of [set] whose width and
    height are numbers (or that does not ask for a custom size) returns
    normally exactly when the alignment is left, center or right, the
    underline is 0, 1 or 2 and the density is between 0 and 9; any other
    alignment, underline or density makes it raise. *)
Theorem set_accepts_iff (C : commands) (a : set_args) (self : NetworkPrinter) :
  standard_tables (TXT_STYLE C) ->
  custom_size a = false \/ (is_number (width a) /\ is_number (height a)) ->
  (fst (set C a self) = Ok tt <->
   In (align a) ["left"; "center"; "right"] /\
   0 <= underline a <= 2 /\ 0 <= density a <= 9).
Proof.
  intros (HT & HN & Ha & Hu & Hd & Hs) Hargs.
  destruct (set_size_on_numbers C a self HT HN Hargs) as (msgs & Hsize & _).
  rewrite set_run, Hsize, set_style_run. simpl fst. rewrite outcome_ok_iff.
  unfold style_commands. rewrite <- (Ha (align a)), <- (Hu (underline a)).
  destruct (Hs (flip a)) as (Hf & _). destruct (Hs (smooth a)) as (_ & Hsm & _).
  destruct (Hs (bold a)) as (_ & _ & Hb & _). destruct (Hs (invert a)) as (_ & _ & _ & Hi).
  destruct (decide (density a = 9)) as [E|E]; simpl;
    rewrite !List.Forall_cons_iff.
  - split.
    + intros (_ & _ & _ & Hul & _ & Hal & _). split; [done|]. split; [done|lia].
    + intros (Hal & Hul & _). repeat split; try done.
  - rewrite (Hd (density a)). split.
    + intros (_ & _ & _ & Hul & _ & Hal & Hde & _). split; [done|]. split; [done|lia].
    + intros (Hal & Hul & Hde). repeat split; try done; lia.
Qed.

Lemma escpos_density_keys : density_keys escpos_style.
Proof.
  intros n. simpl.
  rewrite !lookup_insert_is_Some, lookup_singleton_is_Some. lia.
Qed.

Lemma escpos_switch_keys : switch_keys escpos_style.
Proof. intros []; repeat split; eexists; vm_compute; reflexivity. Qed.

Lemma escpos_standard_tables : standard_tables (TXT_STYLE escpos).
Proof.
  exact (conj escpos_size_tables (conj escpos_size_names
          (conj escpos_align_keys (conj escpos_underline_keys
            (conj escpos_density_keys escpos_switch_keys))))).
Qed.

Lemma set_accepts_iff_witness :
  standard_tables (TXT_STYLE escpos) /\
  (fst (set escpos (density_args 10) (connected "cp866" [])) = Ok tt <->
   In "left" ["left"; "center"; "right"] /\ 0 <= 0 <= 2 /\ 0 <= 10 <= 9).
Proof.
  split; [exact escpos_standard_tables|].
  exact (set_accepts_iff escpos (density_args 10) (connected "cp866" [])
           escpos_standard_tables (or_introl eq_refl)).
Defined.

Lemma set_size_numbers_witness :
  exists msgs : list bytes,
    set_size escpos (custom_args (PyBool true) (PyInt 3)) (connected "cp866" [])
    = (Ok tt, sends (connected "cp866" []) msgs) /\ (length msgs <= 2)%nat.
Proof.
  destruct (set_size_numbers escpos (custom_args (PyBool true) (PyInt 3))
              (connected "cp866" []) escpos_size_tables escpos_size_names
              (or_intror (conj I I))) as (msgs & H1 & _ & H2 & _).
  exists msgs. by split.
Defined.

(** X3. [set] uses an integer width or height only through its value: two
    calls whose widths and heights are ints or bools of the same values do
    the same, so that [True] counts as the multiplier 1. *)
Theorem set_int_value (C : commands) (a : set_args) (self : NetworkPrinter)
    (w w' h h' : pyval) (n m : Z) :
  as_int w = Some n -> as_int w' = Some n ->
  as_int h = Some m -> as_int h' = Some m ->
  set C (with_size a w h) self = set C (with_size a w' h') self.
Proof.
  intros Hw Hw' Hh Hh'.
  assert (forall v v' k, as_int v = Some k -> as_int v' = Some k ->
            py_between 1 v 8 = py_between 1 v' 8 /\
            isinstance_int v = isinstance_int v' /\
            (forall d : gmap Z Z, py_getitem d v = py_getitem d v')) as Hsame.
  { intros v v' k Hv Hv'. unfold py_between, py_getitem.
    destruct v, v'; simpl in *; try done;
      injection Hv as <-; injection Hv' as E; rewrite ?E; try done.
    all: try (by destruct b, b0); try (by rewrite <- E). }
  destruct (Hsame w w' n Hw Hw') as (Bw & Iw & Gw).
  destruct (Hsame h h' m Hh Hh') as (Bh & Ih & Gh).
  unfold set, set_size, size_guard. simpl.
  by rewrite Bw, Bh, Iw, Ih, Gw, Gh.
Qed.

Lemma set_int_value_witness :
  set escpos (with_size demo_args (PyBool true) (PyBool true)) (connected "cp866" [])
  = set escpos (with_size demo_args (PyInt 1) (PyInt 1)) (connected "cp866" []).
Proof.
  exact (set_int_value escpos demo_args (connected "cp866" [])
           (PyBool true) (PyInt 1) (PyBool true) (PyInt 1) 1 1
           eq_refl eq_refl eq_refl eq_refl).
Defined.

(** X4. The range test of the width shields the height: with a custom
    size and a height that is not a number, an integer width within 1..8
    makes the call raise [TypeError] with nothing sent, while an integer
    width outside 1..8 skips the size command without any error. *)
Theorem set_size_short_circuit (C : commands) (a : set_args)
    (self : NetworkPrinter) (n : Z) :
  custom_size a = true -> width a = PyInt n -> ~ is_number (height a) ->
  (1 <= n <= 8 -> set C a self = (Raise TypeError, self)) /\
  (~ (1 <= n <= 8) ->
     set_size C a self = (Ok tt, self) /\ set C a self = set_style C a self).
Proof.
  intros Hc Hw Hh. split.
  - intros Hn. rewrite set_run, (set_size_raise C a self TypeError); try done.
    rewrite Hw. unfold size_guard, py_between. simpl.
    assert ((1 <=? n) = true) as -> by lia. assert ((n <=? 8) = true) as -> by lia.
    simpl. by destruct (height a).
  - intros Hn.
    assert (set_size C a self = (Ok tt, self)) as Hs.
    { apply set_size_skip; [done|]. rewrite Hw. unfold size_guard, py_between. simpl.
      destruct (Z.leb_spec 1 n); simpl; [|done].
      destruct (Z.leb_spec n 8); simpl; [lia|done]. }
    split; [done|]. by rewrite set_run, Hs.
Qed.

Lemma set_size_short_circuit_witness :
  set escpos (custom_args (PyInt 3) PyNone) (connected "cp866" [])
  = (Raise TypeError, connected "cp866" []) /\
  set_size escpos (custom_args (PyInt 0) PyNone) (connected "cp866" [])
  = (Ok tt, connected "cp866" []).
Proof.
  split.
  - exact (proj1 (set_size_short_circuit escpos (custom_args (PyInt 3) PyNone)
                    (connected "cp866" []) 3 eq_refl eq_refl (fun H => H))
                 ltac:(lia)).
  - exact (proj1 (proj2 (set_size_short_circuit escpos (custom_args (PyInt 0) PyNone)
                    (connected "cp866" []) 0 eq_refl eq_refl (fun H => H))
                 ltac:(lia))).
Defined.

(** X5. A call of [set] that fails is not undone: when the alignment is
    not a key of its table, the flip, smoothing, bold, underline and font
    commands have already been sent when [KeyError] is raised, and when the
    density is neither 9 nor a key of its table the alignment command has
    been sent as well. *)
Theorem set_style_partial (C : commands) (a : set_args) (self : NetworkPrinter)
    (cf cs cb cu : bytes) :
  let T := TXT_STYLE C in
  style_flip T !! flip a = Some cf -> style_smooth T !! smooth a = Some cs ->
  style_bold T !! bold a = Some cb ->
  style_underline T !! underline a = Some cu ->
  (style_align T !! align a = None ->
     set_style C a self
     = (Raise KeyError, sends self [cf; cs; cb; cu; SET_FONT C [1]])) /\
  (forall ca : bytes, style_align T !! align a = Some ca ->
     density a <> 9 -> style_density T !! density a = None ->
     set_style C a self
     = (Raise KeyError, sends self [cf; cs; cb; cu; SET_FONT C [1]; ca])).
Proof.
  intros T Hf Hs Hb Hu. subst T. split.
  - intros Ha. rewrite set_style_run. unfold style_commands.
    rewrite Hf, Hs, Hb, Hu, Ha. simpl. reflexivity.
  - intros ca Ha Hd9 Hd. rewrite set_style_run. unfold style_commands.
    rewrite Hf, Hs, Hb, Hu, Ha, Hd. destruct (decide (density a = 9)); [done|].
    reflexivity.
Qed.

Lemma set_style_partial_witness :
  set_style escpos (bad_args "top" 0) (connected "cp866" [])
  = (Raise KeyError,
     sends (connected "cp866" [])
       [[ESC; 0x7b; 0]; [GS; 0x62; 0]; [ESC; 0x45; 0]; [ESC; 0x2d; 0];
        [ESC; 0x4d; 1]]).
Proof.
  exact (proj1 (set_style_partial escpos (bad_args "top" 0) (connected "cp866" [])
                  [ESC; 0x7b; 0] [GS; 0x62; 0] [ESC; 0x45; 0] [ESC; 0x2d; 0]
                  eq_refl eq_refl eq_refl eq_refl) eq_refl).
Defined.

(** X6. The two ways of giving a size exclude each other: with a custom
    size the doubling flags are never read, and without one the width and
    the height are never read, whatever their type. *)
Theorem set_size_exclusive (C : commands) (a : set_args) (self : NetworkPrinter) :
  (custom_size a = true ->
     forall dw dh : bool, set C (with_double a dw dh) self = set C a self) /\
  (custom_size a = false ->
     forall w h : pyval, set C (with_size a w h) self = set C a self).
Proof.
  split; intros Hc *; unfold set, set_size; simpl; by rewrite Hc.
Qed.
(** ** Composing the text writers *)

Lemma code_points_ascii_app (s t : string) :
  ascii_text s -> ascii_text t -> ascii_text (s +:+ t).
Proof.
  unfold ascii_text. rewrite code_points_app. apply Forall_app_2.
Qed.

Lemma text_ascii (encode : string -> string -> result bytes)
    (txt : string) (self : NetworkPrinter) :
  ascii_compatible encode (codepage self) -> ascii_text txt ->
  text encode txt self = (Ok tt, sends self [code_points txt]).
Proof. intros Hcp Htxt. apply text_encoded. by apply Hcp. Qed.

(** X8. On a code page that agrees with ASCII, printing two 7-bit texts
    one after the other puts the same bytes on the wire as printing their
    concatenation: the code points of the first followed by those of the
    second. *)
Theorem text_app_wire (encode : string -> string -> result bytes)
    (s t : string) (self : NetworkPrinter) :
  ascii_compatible encode (codepage self) -> ascii_text s -> ascii_text t ->
  fst ((text encode s;; text encode t) self) = Ok tt /\
  wire (snd ((text encode s;; text encode t) self))
  = wire (snd (text encode (s +:+ t) self)) /\
  wire (snd (text encode (s +:+ t) self))
  = wire self ++ code_points s ++ code_points t.
Proof.
  intros Hcp Hs Ht.
  assert ((text encode s;; text encode t) self
          = (Ok tt, sends self [code_points s; code_points t])) as Hseq.
  { unfold mbind, M_bind. rewrite (text_ascii encode s self Hcp Hs).
    rewrite (text_ascii encode t (sends self [code_points s])) by done.
    by rewrite sends_sends. }
  rewrite Hseq, (text_ascii encode (s +:+ t) self Hcp) by by apply code_points_ascii_app.
  simpl fst. simpl snd. rewrite !wire_sends, code_points_app. simpl.
  by rewrite !app_nil_r.
Qed.

Lemma newline_ascii : ascii_text NL.
Proof. repeat constructor. Qed.

(** X9. On a code page that agrees with ASCII, [text_ln] of a 7-bit text
    sends one buffer, the code points of the text followed by the byte
    0x0A: the bytes of [text] and then a line feed. *)
Theorem text_ln_wire (encode : string -> string -> result bytes)
    (txt : string) (self : NetworkPrinter) :
  ascii_compatible encode (codepage self) -> ascii_text txt ->
  text_ln encode txt self = (Ok tt, sends self [code_points txt ++ [10]]) /\
  wire (snd (text_ln encode txt self))
  = wire (snd (text encode txt self)) ++ [10].
Proof.
  intros Hcp Htxt. unfold text_ln. rewrite format_newline.
  rewrite (text_ascii encode (txt +:+ NL) self Hcp)
    by (apply code_points_ascii_app; [done|apply newline_ascii]).
  rewrite (text_ascii encode txt self Hcp Htxt), code_points_app.
  split; [done|]. simpl snd. rewrite !wire_sends. simpl.
  by rewrite !app_nil_r, app_assoc.
Qed.

(** ** Newlines *)

Lemma newlines_comm (n : nat) :
  NL +:+ str_mul NL (Z.of_nat n) = str_mul NL (Z.of_nat n) +:+ NL.
Proof.
  induction n as [|n IH]; [reflexivity|].
  rewrite str_mul_succ. rewrite IH at 1. reflexivity.
Qed.

(** X10. For every [n >= 0] and every codec, [ln (n + 1)] is [text_ln] of
    [n] newlines; in particular [ln 1], the default, is [text_ln] of the
    empty string. *)
Theorem ln_succ (encode : string -> string -> result bytes)
    (n : Z) (self : NetworkPrinter) :
  0 <= n -> ln encode (n + 1) self = text_ln encode (str_mul NL n) self.
Proof.
  intros Hn. rewrite ln_positive by lia. unfold text_ln. rewrite format_newline.
  f_equal. rewrite <- (Z2Nat.id n) by lia.
  replace (Z.of_nat (Z.to_nat n) + 1) with (Z.of_nat (S (Z.to_nat n))) by lia.
  rewrite str_mul_succ. apply newlines_comm.
Qed.

Lemma ln_run (encode : string -> string -> result bytes)
    (count : Z) (self : NetworkPrinter) :
  ascii_compatible encode (codepage self) -> 0 <= count ->
  ln encode count self
  = (Ok tt, if count =? 0 then self else sends self [repeat 10 (Z.to_nat count)]).
Proof.
  intros Hcp Hc. destruct (Z.eqb_spec count 0) as [->|Hne]; [reflexivity|].
  rewrite ln_positive by lia. apply text_encoded.
  rewrite <- (Z2Nat.id count) at 1 by lia.
  rewrite Hcp; rewrite code_points_newlines; [done|].
  apply repeat_Forall. lia.
Qed.

Lemma wire_ln (encode : string -> string -> result bytes)
    (count : Z) (self : NetworkPrinter) :
  ascii_compatible encode (codepage self) -> 0 <= count ->
  wire (snd (ln encode count self)) = wire self ++ repeat 10 (Z.to_nat count).
Proof.
  intros Hcp Hc. rewrite ln_run by done. simpl snd.
  destruct (Z.eqb_spec count 0) as [->|Hne].
  - simpl. by rewrite app_nil_r.
  - rewrite wire_sends. simpl. by rewrite app_nil_r.
Qed.

(** X11. On a code page that agrees with ASCII, two calls of [ln] with
    counts [m >= 0] and [n >= 0] put the same bytes on the wire as one call
    with [m + n], and neither raises. *)
Theorem ln_add_wire (encode : string -> string -> result bytes)
    (m n : Z) (self : NetworkPrinter) :
  ascii_compatible encode (codepage self) -> 0 <= m -> 0 <= n ->
  fst ((ln encode m;; ln encode n) self) = Ok tt /\
  wire (snd ((ln encode m;; ln encode n) self))
  = wire (snd (ln encode (m + n) self)).
Proof.
  intros Hcp Hm Hn.
  rewrite (wire_ln encode (m + n) self Hcp) by lia.
  unfold mbind, M_bind. rewrite (ln_run encode m self Hcp Hm).
  assert (codepage (if m =? 0 then self else sends self [repeat 10 (Z.to_nat m)])
          = codepage self) as Hsame by by destruct (m =? 0).
  rewrite ln_run by (by rewrite ?Hsame). split; [done|]. simpl snd.
  rewrite Z2Nat.inj_add, repeat_app by lia.
  destruct (Z.eqb_spec m 0) as [->|]; destruct (Z.eqb_spec n 0) as [->|];
    rewrite ?wire_sends; simpl; rewrite ?app_nil_r; try done.
  by rewrite app_assoc.
Qed.

(** X12. On a code page that agrees with ASCII, [cut] is [ln 6] followed
    by the raw cut command: the same result and the same buffers. *)
Theorem cut_is_ln_six (C : commands) (encode : string -> string -> result bytes)
    (mode : string) (self : NetworkPrinter) :
  ascii_compatible encode (codepage self) ->
  cut C mode self
  = (ln encode 6;;
     _raw (if String.eqb (upper mode) "PART" then PAPER_PART_CUT C
           else PAPER_FULL_CUT C)) self.
Proof.
  intros Hcp. rewrite cut_run, upper_is_PART. unfold mbind, M_bind.
  rewrite (ln_run encode 6 self Hcp) by lia. simpl.
  unfold _raw. by rewrite sends_sends.
Qed.

(** ** Case of the cut mode *)

Lemma upper_lower_char (c : ascii) : upper_char (lower_char c) = upper_char c.
Proof. destruct c as [[] [] [] [] [] [] [] []]; reflexivity. Qed.

Lemma upper_char_idem (c : ascii) : upper_char (upper_char c) = upper_char c.
Proof. destruct c as [[] [] [] [] [] [] [] []]; reflexivity. Qed.

Lemma ci_eqb_upper (s t : string) : ci_eqb s t = true -> upper s = upper t.
Proof.
  revert t. induction s as [|a s IH]; intros [|b t]; simpl; try done.
  intros H. apply andb_true_iff in H as [Hab Hst].
  apply Ascii.eqb_eq in Hab.
  rewrite <- (upper_lower_char a), Hab, upper_lower_char. f_equal. by apply IH.
Qed.

Lemma upper_idem (s : string) : upper (upper s) = upper s.
Proof. induction s as [|c s IH]; simpl; [done|]. by rewrite upper_char_idem, IH. Qed.

(** X13. [cut] reads its mode up to the case of the ASCII letters: two
    modes that differ only in case cut the same way, and so does the mode
    in upper case. *)
Theorem cut_case_insensitive (C : commands) (m1 m2 : string)
    (self : NetworkPrinter) :
  ci_eqb m1 m2 = true ->
  cut C m1 self = cut C m2 self /\ cut C (upper m1) self = cut C m1 self.
Proof.
  intros H. apply ci_eqb_upper in H. unfold cut.
  by rewrite H, upper_idem.
Qed.

Lemma cut_case_insensitive_witness :
  cut escpos "Part" (connected "cp866" []) = cut escpos "pARt" (connected "cp866" []).
Proof.
  exact (proj1 (cut_case_insensitive escpos "Part" "pARt" (connected "cp866" [])
                  eq_refl)).
Defined.

(** ** Status *)

(** X15. On the runs in which the read returns, [is_online] and
    [paper_status] look at the first byte of the answer only: two printers
    whose answers start with the same byte, or are both empty, get the
    same results.  The length test shields [status[0]], so that neither
    method raises [IndexError], and whatever [paper_status] returns is 0,
    1, 2 or [None]. *)
Theorem status_first_byte (C : commands) (self self' : NetworkPrinter) :
  head (rx (device self)) = head (rx (device self')) ->
  fst (is_online C self) = fst (is_online C self') /\
  fst (paper_status C self) = fst (paper_status C self') /\
  fst (is_online C self) <> Raise IndexError /\
  fst (paper_status C self) <> Raise IndexError /\
  (forall level : pyval, fst (paper_status C self) = Ok level ->
     In level [PyInt 0; PyInt 1; PyInt 2; PyNone]).
Proof.
  intros Hhead. unfold is_online, paper_status. rewrite !bind_query_status.
  destruct (rx (device self)) as [|b rest], (rx (device self')) as [|b' rest'];
    simpl in Hhead; try done.
  - simpl. repeat split; try done. intros level [= <-]. simpl. tauto.
  - injection Hhead as <-. simpl.
    unfold mbind, M_bind, lift, mret, M_ret. simpl.
    split; [done|]. split.
    { repeat (match goal with
              | |- context [Z.eqb ?x ?y] => destruct (Z.eqb x y)
              end); reflexivity. }
    split; [done|].
    repeat (match goal with
            | |- context [Z.eqb ?x ?y] => destruct (Z.eqb x y)
            end); (split; [done|]); intros level [= <-]; simpl; tauto.
Qed.

Lemma status_first_byte_witness :
  fst (paper_status escpos (connected "cp866" [18; 0; 7]))
  = fst (paper_status escpos (connected "ascii" [18])).
Proof.
  exact (proj1 (proj2 (status_first_byte escpos (connected "cp866" [18; 0; 7])
                         (connected "ascii" [18]) eq_refl))).
Defined.

Lemma land_submask (b m p : Z) :
  Z.land m p = p -> Z.land b m = m -> Z.land b p = p.
Proof.
  intros Hp Hm. rewrite <- Hp at 1. by rewrite Z.land_assoc, Hm.
Qed.

(** X16. When the bits of the paper-present mask are among those of the
    no-paper and of the low-paper mask, [paper_status] on a non-empty
    answer returns [None] exactly when the first byte lacks a
    paper-present bit, and a level 0, 1 or 2 otherwise. *)
Theorem paper_status_nested (C : commands) (self : NetworkPrinter)
    (b : Z) (rest : bytes) :
  nested_paper_masks C -> rx (device self) = b :: rest ->
  (fst (paper_status C self) = Ok PyNone
   <-> Z.land b (RT_MASK_PAPER C) <> RT_MASK_PAPER C) /\
  (Z.land b (RT_MASK_PAPER C) = RT_MASK_PAPER C ->
   exists n : Z, fst (paper_status C self) = Ok (PyInt n) /\ 0 <= n <= 2).
Proof.
  intros [Hno Hlow] Hrx. unfold paper_status. rewrite bind_query_status, Hrx.
  simpl. unfold mbind, M_bind, lift, mret, M_ret. simpl.
  destruct (Z.eqb_spec (Z.land b (RT_MASK_NOPAPER C)) (RT_MASK_NOPAPER C)) as [E1|E1];
    [pose proof (land_submask _ _ _ Hno E1)|];
    [|destruct (Z.eqb_spec (Z.land b (RT_MASK_LOWPAPER C)) (RT_MASK_LOWPAPER C)) as [E2|E2];
      [pose proof (land_submask _ _ _ Hlow E2)|];
      [|destruct (Z.eqb_spec (Z.land b (RT_MASK_PAPER C)) (RT_MASK_PAPER C)) as [E3|E3]]];
    simpl; (split; [split; [done|done]|]); intros; try done.
  - exists 0. split; [done|lia].
  - exists 1. split; [done|lia].
  - exists 2. split; [done|lia].
Qed.

Lemma paper_status_nested_witness :
  nested_paper_masks escpos /\
  (fst (paper_status escpos (connected "cp866" [16])) = Ok PyNone
   <-> Z.land 16 18 <> 18).
Proof.
  assert (nested_paper_masks escpos) as Hn by (split; reflexivity).
  split; [exact Hn|].
  exact (proj1 (paper_status_nested escpos (connected "cp866" [16]) 16 []
                  Hn eq_refl)).
Defined.

(** ** The demo *)

Lemma bind_ok {A B : Type} (m : M A) (k : A -> M B) (x : A)
    (self self1 : NetworkPrinter) :
  m self = (Ok x, self1) -> (m ≫= k) self = k x self1.
Proof. intros E. unfold mbind, M_bind. by rewrite E. Qed.

Lemma set_valid_run (C : commands) (a : set_args) (self : NetworkPrinter) :
  standard_tables (TXT_STYLE C) ->
  custom_size a = false \/ (is_number (width a) /\ is_number (height a)) ->
  In (align a) ["left"; "center"; "right"] -> 0 <= underline a <= 2 ->
  0 <= density a <= 9 ->
  exists msgs : list bytes, set C a self = (Ok tt, sends self msgs).
Proof.
  intros (HT & HN & Ha & Hu & Hd & Hs) Hargs Hal Hul Hde.
  destruct (set_size_on_numbers C a self HT HN Hargs) as (msgs & Hsize & _).
  rewrite set_run, Hsize, set_style_run, sends_sends.
  exists (msgs ++ emitted (style_commands C a)). f_equal.
  apply outcome_ok. unfold style_commands.
  destruct (Hs (flip a)) as (Hf & _). destruct (Hs (smooth a)) as (_ & Hsm & _).
  destruct (Hs (bold a)) as (_ & _ & Hb & _). destruct (Hs (invert a)) as (_ & _ & _ & Hi).
  apply Ha in Hal. apply Hu in Hul.
  destruct (decide (density a = 9)) as [E|E]; simpl;
    rewrite !List.Forall_cons_iff; repeat split; try done.
  apply Hd. lia.
Qed.

Lemma ascii_text_check (txt : string) :
  forallb (fun b => b <? 128) (code_points txt) = true -> ascii_text txt.
Proof.
  intros H. apply Forall_forall. intros b Hb.
  rewrite forallb_forall in H. apply list_elem_of_In in Hb.
  apply H in Hb. lia.
Qed.

Lemma text_ln_ascii (encode : string -> string -> result bytes)
    (txt : string) (self : NetworkPrinter) :
  ascii_compatible encode (codepage self) -> ascii_text txt ->
  text_ln encode txt self = (Ok tt, sends self [code_points txt ++ [10]]).
Proof.
  intros Hcp Htxt. unfold text_ln. rewrite format_newline.
  rewrite (text_ascii encode (txt +:+ NL) self Hcp)
    by (apply code_points_ascii_app; [done|apply newline_ascii]).
  by rewrite code_points_app.
Qed.

(** X17. [demo_print] of examples/demo.py runs to its end on tables with
    the standard keys and a code page that agrees with ASCII: no call
    raises, the three lines of text are sent each with its line feed, and
    the last two buffers are the six newlines and the full cut. *)
Theorem demo_print_runs (C : commands)
    (encode : string -> string -> result bytes) (self : NetworkPrinter) :
  standard_tables (TXT_STYLE C) -> ascii_compatible encode (codepage self) ->
  exists msgs : list bytes,
    demo_print C encode self
    = (Ok tt, sends self (msgs ++ [repeat 10 6%nat; PAPER_FULL_CUT C])) /\
    In (code_points "Demo network-escpos" ++ [10]) msgs /\
    In (code_points "Hello Workd" ++ [10]) msgs /\
    In (code_points "Test success!" ++ [10]) msgs.
Proof.
  intros HT Hcp. unfold demo_print.
  repeat first
    [ match goal with
      | |- context [(set C ?a ≫= _) ?s] =>
          let l := fresh "l" in
          let E := fresh "E" in
          destruct (set_valid_run C a s HT) as (l & E);
          [right; by split|simpl; tauto|simpl; lia|simpl; lia|];
          rewrite (bind_ok _ _ _ _ _ E), ?sends_sends
      | |- context [(text_ln encode ?t ≫= _) ?s] =>
          rewrite (bind_ok _ _ _ _ _
                     (text_ln_ascii encode t s Hcp (ascii_text_check t eq_refl))),
            ?sends_sends
      | |- context [(ln encode ?n ≫= _) ?s] =>
          rewrite (bind_ok _ _ _ _ _ (ln_run encode n s Hcp ltac:(lia)));
          simpl (n =? 0); cbv iota; rewrite ?sends_sends
      end ].
  rewrite cut_run. simpl (ci_eqb "FULL" "PART"). cbv iota.
  rewrite !sends_sends.
  eexists. split.
  - reflexivity.
  - rewrite !in_app_iff. simpl. tauto.
Qed.

Lemma text_app_wire_witness :
  wire (snd ((text sample_encode "ab";; text sample_encode "c") (connected "cp866" [])))
  = wire (snd (text sample_encode "abc" (connected "cp866" []))).
Proof.
  exact (proj1 (proj2 (text_app_wire sample_encode "ab" "c" (connected "cp866" [])
                         cp866_ascii_compatible
                         (ascii_text_check "ab" eq_refl)
                         (ascii_text_check "c" eq_refl)))).
Defined.

Lemma text_ln_wire_witness :
  text_ln sample_encode "abc" (connected "cp866" [])
  = (Ok tt, sends (connected "cp866" []) [[97; 98; 99; 10]]).
Proof.
  exact (proj1 (text_ln_wire sample_encode "abc" (connected "cp866" [])
                  cp866_ascii_compatible (ascii_text_check "abc" eq_refl))).
Defined.

Lemma ln_succ_witness :
  ln sample_encode 1 (connected "cp866" [])
  = text_ln sample_encode "" (connected "cp866" []).
Proof.
  exact (ln_succ sample_encode 0 (connected "cp866" []) ltac:(lia)).
Defined.

Lemma ln_add_wire_witness :
  wire (snd ((ln sample_encode 2;; ln sample_encode 1) (connected "cp866" [])))
  = wire (snd (ln sample_encode 3 (connected "cp866" []))).
Proof.
  exact (proj2 (ln_add_wire sample_encode 2 1 (connected "cp866" [])
                  cp866_ascii_compatible ltac:(lia) ltac:(lia))).
Defined.

Lemma cut_is_ln_six_witness :
  cut escpos "FULL" (connected "cp866" [])
  = (ln sample_encode 6;; _raw (PAPER_FULL_CUT escpos)) (connected "cp866" []).
Proof.
  exact (cut_is_ln_six escpos sample_encode "FULL" (connected "cp866" [])
           cp866_ascii_compatible).
Defined.

Lemma demo_print_runs_witness :
  fst (demo_print escpos sample_encode (connected "cp866" [])) = Ok tt.
Proof.
  destruct (demo_print_runs escpos sample_encode (connected "cp866" [])
              escpos_standard_tables cp866_ascii_compatible) as (msgs & E & _).
  rewrite E. reflexivity.
Defined.


(** The whole demo on the standard tables and code page 866: 31 buffers,
    of which the size commands carry the bytes 0x11, 0x44 and 0x00, and the
    full cut at the end. *)
Example demo_print_trace :
  let run := demo_print escpos sample_encode (connected "cp866" []) in
  fst run = Ok tt /\
  length (sent (device (snd run))) = 31%nat /\
  filter (fun msg => take 2 msg = [GS; 0x21]) (sent (device (snd run)))
  = [[GS; 0x21; 0x11]; [GS; 0x21; 0x44]; [GS; 0x21; 0x00]] /\
  last (sent (device (snd run))) = Some [GS; 0x56; 0].
Proof. by vm_compute. Qed.

(** ** Frame *)

Lemma appends_raw (msg : bytes) : appends (_raw msg).
Proof. intros self. by exists [msg]. Qed.

Lemma appends_ret {A : Type} (a : A) : appends (mret a : M A).
Proof. intros self. exists []. simpl. by rewrite sends_nil. Qed.

Lemma appends_lift {A : Type} (r : result A) : appends (lift r).
Proof. intros self. exists []. simpl. by rewrite sends_nil. Qed.

Lemma appends_raise {A : Type} (e : exn) : appends (raise e : M A).
Proof. intros self. exists []. simpl. by rewrite sends_nil. Qed.

Lemma appends_bind {A B : Type} (m : M A) (k : A -> M B) :
  appends m -> (forall x : A, appends (k x)) -> appends (m ≫= k).
Proof.
  intros Hm Hk self. destruct (Hm self) as (l1 & H1).
  unfold mbind, M_bind. destruct (m self) as [[x|e] self1]; simpl in H1; subst self1.
  - destruct (Hk x (sends self l1)) as (l2 & H2).
    exists (l1 ++ l2). by rewrite H2, sends_sends.
  - by exists l1.
Qed.

Lemma appends_if {A : Type} (b : bool) (m1 m2 : M A) :
  appends m1 -> appends m2 -> appends (if b then m1 else m2).
Proof. by destruct b. Qed.

Lemma appends_get_codepage : appends get_codepage.
Proof. intros self. exists []. simpl. by rewrite sends_nil. Qed.

Ltac appends_tac :=
  repeat first
    [ apply appends_raw | apply appends_ret | apply appends_lift
    | apply appends_raise | apply appends_get_codepage
    | apply appends_if
    | apply appends_bind; [|intros ?] ].

Lemma appends_text (encode : string -> string -> result bytes) (txt : string) :
  appends (text encode txt).
Proof. unfold text. appends_tac. Qed.

(** X7. [set], [text], [text_ln], [ln] and [cut] only ever send: whether
    they return or raise, what was sent before is kept and extended, and
    the pending answer of the printer, the code page, the host and the port
    are left as they were. *)
Theorem writers_append (C : commands)
    (encode : string -> string -> result bytes) :
  (forall a : set_args, appends (set C a)) /\
  (forall txt : string, appends (text encode txt)) /\
  (forall txt : string, appends (text_ln encode txt)) /\
  (forall count : Z, appends (ln encode count)) /\
  (forall mode : string, appends (cut C mode)) /\
  (forall (A : Type) (m : M A) (self : NetworkPrinter), appends m ->
     rx (device (snd (m self))) = rx (device self) /\
     codepage (snd (m self)) = codepage self /\
     host (snd (m self)) = host self /\ port (snd (m self)) = port self /\
     exists msgs : list bytes,
       sent (device (snd (m self))) = sent (device self) ++ msgs).
Proof.
  repeat split.
  - intros a. unfold set, set_size, set_style. appends_tac.
  - apply appends_text.
  - intros txt. apply appends_text.
  - intros count. unfold ln. appends_tac; apply appends_text.
  - intros mode. unfold cut. appends_tac.
  - by destruct (H self) as (msgs & ->).
  - by destruct (H self) as (msgs & ->).
  - by destruct (H self) as (msgs & ->).
  - by destruct (H self) as (msgs & ->).
  - destruct (H self) as (msgs & ->). by exists msgs.
Qed.
